(** * Password Strength Lab: the strength estimator and its display helpers

    A shallow embedding of [client/src/App.tsx] and of the three other
    versions of that file kept in the repository, with the properties the
    specification states about them.

    Conventions of the embedding.
    - A JavaScript number that the code only ever uses as a finite quantity
      is a rational ([Q]), with exact arithmetic; a number that is integral
      by construction (the result of [Math.round], a [length], the oracle's
      [score]) is a [Z].  A number that the code tests with [isFinite] is a
      [JS.Number], which adds the two infinities and NaN.
    - The version of the meter that calls [Math.pow] with the exponent 0.72
      is embedded over the real numbers ([R]).
    - Where the rounding of a binary64 product decides what the code
      returns (the entropy line), the expression is embedded once more on
      IEEE 754 binary64 numbers, in the module [Binary64].
    - A password is a JavaScript string: a list of UTF-16 code units.  The
      regular expressions of the source carry no [u] flag, so they test code
      units one at a time.
    - [zxcvbn], the guessing oracle, is a library outside the repository: it
      is a parameter of [scorePassword].
    - [console.log(result)] only writes a diagnostic and is left out. *)

From Stdlib Require Import ZArith QArith Qround Qminmax Qabs Qpower Lqa Lia.
From Stdlib Require Import List String Ascii Bool.
From Stdlib Require Import DecimalString.
From Stdlib Require Import Reals.
From Stdlib Require Import SpecFloat.
Import ListNotations.

(** ** The JavaScript primitives the source relies on *)

Module JS.

(** A string value, as its UTF-16 code units. *)
Definition str : Type := list N.

(** The code units of an ASCII literal. *)
Definition lit (s : string) : str := map N_of_ascii (list_ascii_of_string s).

(** [s.length] *)
Definition length (s : str) : Z := Z.of_nat (List.length s).

(** A regular expression made of one bracket expression: [[a-z]] is
    [CharSet false [(97, 122)]], [[^a-zA-Z0-9]] is a negated set. *)
Inductive RegExp : Type :=
| CharSet (negated : bool) (ranges : list (N * N)).

Definition in_ranges (c : N) (ranges : list (N * N)) : bool :=
  existsb (fun r => (fst r <=? c)%N && (c <=? snd r)%N) ranges.

Definition matches (re : RegExp) (c : N) : bool :=
  match re with
  | CharSet negated ranges => xorb negated (in_ranges c ranges)
  end.

(** [regex.test(s)]: some code unit of [s] is in the set. *)
Definition test (re : RegExp) (s : str) : bool := existsb (matches re) s.

Definition cu (a : ascii) : N := N_of_ascii a.

(** [/[a-z]/], [/[A-Z]/], [/[0-9]/], [/[^a-zA-Z0-9]/] and [/\s/] *)
Definition re_lower : RegExp := CharSet false [(cu "a", cu "z")].
Definition re_upper : RegExp := CharSet false [(cu "A", cu "Z")].
Definition re_digit : RegExp := CharSet false [(cu "0", cu "9")].
Definition re_other : RegExp :=
  CharSet true [(cu "a", cu "z"); (cu "A", cu "Z"); (cu "0", cu "9")].
Definition re_space : RegExp :=
  CharSet false
    [(9, 13); (32, 32); (160, 160); (5760, 5760); (8192, 8202);
     (8232, 8233); (8239, 8239); (8287, 8287); (12288, 12288);
     (65279, 65279)]%N.

(** Numbers that may fail [isFinite]. *)
Inductive Number : Type :=
| Finite (q : Q)
| PosInfinity
| NegInfinity
| NaN.

Definition isFinite (x : Number) : bool :=
  match x with Finite _ => true | _ => false end.

(** [x <= 0]; a comparison with NaN is false. *)
Definition le_zero (x : Number) : bool :=
  match x with
  | Finite q => Qle_bool q 0
  | NegInfinity => true
  | PosInfinity | NaN => false
  end.

(** [Math.round]: the integer nearest to [x], a tie going up. *)
Definition Math_round (x : Q) : Z := Qfloor (x + (1 # 2)).

(** [Math.max] on integers. *)
Definition Math_max (a b : Z) : Z := Z.max a b.

(** [Math.LN10] and [Math.LN2]: the two binary64 constants, exactly. *)
Definition Math_LN10 : Q := 2592480341699211 # 1125899906842624.
Definition Math_LN2 : Q := 6243314768165359 # 9007199254740992.

(** [a[i]]: [undefined] outside the array. *)
Definition index {A : Type} (a : list A) (i : Z) : option A :=
  if (i <? 0)%Z then None else nth_error a (Z.to_nat i).

(** [x ?? d] *)
Definition nullish {A : Type} (x : option A) (d : A) : A :=
  match x with Some a => a | None => d end.

(** Truthiness of an optional string: [undefined] and the empty string
    are falsy. *)
Definition truthy (x : option string) : bool :=
  match x with
  | Some s => negb (String.eqb s EmptyString)
  | None => false
  end.

(** [a || b] with [a] a string and [b] possibly [undefined]: the empty
    string is falsy. *)
Definition or_undef (a : string) (b : option string) : option string :=
  if String.eqb a EmptyString then b else Some a.

(** [x || d] with [x] possibly [undefined] and [d] a string. *)
Definition or_default (x : option string) (d : string) : string :=
  match x with
  | Some s => if String.eqb s EmptyString then d else s
  | None => d
  end.

(** The decimal digits of a non-negative integer. *)
Definition digits (z : Z) : string :=
  NilEmpty.string_of_uint (N.to_uint (Z.to_N z)).

(** [String(x)] for the numbers [formatDuration] prints: a non-negative
    multiple of one tenth.  The integer part is printed in full; numbers
    from 1e21 on, which JavaScript prints with an exponent, are outside
    what this definition covers. *)
Definition toString (x : Q) : string :=
  let tenths := Qfloor (x * 10) in
  let whole := (tenths / 10)%Z in
  let frac := (tenths mod 10)%Z in
  let int_part := if (whole =? 0)%Z then "0"%string else digits whole in
  if (frac =? 0)%Z then int_part
  else (int_part ++ "." ++ digits frac)%string.

End JS.

(** ** The guessing oracle's result (the fields of a [zxcvbn] result that the
    source reads) *)

Module Zxcvbn.

Record Scenarios (A : Type) : Type := {
  online_throttling_100_per_hour : A;
  online_no_throttling_10_per_second : A;
  offline_slow_hashing_1e4_per_second : A;
  offline_fast_hashing_1e10_per_second : A
}.
Arguments online_throttling_100_per_hour {A}.
Arguments online_no_throttling_10_per_second {A}.
Arguments offline_slow_hashing_1e4_per_second {A}.
Arguments offline_fast_hashing_1e10_per_second {A}.

Record Feedback : Type := {
  warning : string;
  suggestions : list string
}.

Record Result : Type := {
  guesses_log10 : Q;
  crack_times_seconds : Scenarios JS.Number;
  crack_times_display : Scenarios string;
  feedback : Feedback;
  score : Z
}.

(** The oracle: any function from passwords to results. *)
Definition Oracle : Type := JS.str -> Result.

End Zxcvbn.

(** ** [client/src/App.tsx] *)

Module App.

Module Estimate.
Record t : Type := {
  entropy : Z;
  crackSeconds : JS.Number;
  crackTime : string;
  suggestion : string;
  variety : Z;
  score : Z;
  meterPercent : Q
}.
End Estimate.

Module Level.
Record t : Type := {
  score : Z;
  label : string;
  color : string
}.
End Level.

Definition LEVELS : list Level.t :=
  [ {| Level.score := 0; Level.label := "Very weak"; Level.color := "#ef4444" |};
    {| Level.score := 1; Level.label := "Weak"; Level.color := "#f97316" |};
    {| Level.score := 2; Level.label := "Okay"; Level.color := "#f59e0b" |};
    {| Level.score := 3; Level.label := "Strong"; Level.color := "#10b981" |};
    {| Level.score := 4; Level.label := "Excellent"; Level.color := "#14b8a6" |} ].

Definition LOG2_10 : Q := JS.Math_LN10 / JS.Math_LN2.

(** [LEVELS.find(...) ?? LEVELS[0]]; [LEVELS[0]] of an empty table would
    be [undefined], hence the option. *)
Definition strengthFromScore (score : Z) : option Level.t :=
  match find (fun level => (Level.score level =? score)%Z) LEVELS with
  | Some level => Some level
  | None => JS.index LEVELS 0
  end.

Definition varietyLabel (variety : Z) : string :=
  let map := ["just one type"; "two types"; "three types"; "four types"]%string in
  JS.nullish (JS.index map (variety - 1)) "no variety yet"%string.

Definition clamp (n min max : Q) : Q := Qmin (Qmax n min) max.

Definition meterPercentFromGuessesLog10 (guessesLog10 : Q) : Q :=
  let min := 2 in
  let max := 18 in
  let t := clamp ((guessesLog10 - min) / (max - min)) 0 1 in
  let eased := 1 - (1 - t) ^ 2 in
  eased * 100.

(** [Number(...)] and [String(...)] are applied to a number and to a string
    of the oracle's result, which they leave unchanged. *)
Definition scorePassword (zxcvbn : Zxcvbn.Oracle) (password : JS.str)
  : Estimate.t :=
  let result := zxcvbn password in
  let variety :=
    Z.of_nat (List.length
      (filter (fun regex => JS.test regex password)
         [JS.re_lower; JS.re_upper; JS.re_digit; JS.re_other])) in
  let entropy :=
    JS.Math_max 0 (JS.Math_round (Zxcvbn.guesses_log10 result * LOG2_10)) in
  let crackSeconds :=
    Zxcvbn.offline_fast_hashing_1e10_per_second
      (Zxcvbn.crack_times_seconds result) in
  let crackTime :=
    Zxcvbn.offline_fast_hashing_1e10_per_second
      (Zxcvbn.crack_times_display result) in
  let feedback :=
    if (JS.length password =? 0)%Z
    then "Type a password to see how strong it is!"%string
    else
      JS.or_default
        (JS.or_undef (Zxcvbn.warning (Zxcvbn.feedback result))
           (JS.index (Zxcvbn.suggestions (Zxcvbn.feedback result)) 0))
        "Nice job! This looks strong."%string in
  {| Estimate.entropy := entropy;
     Estimate.crackSeconds := crackSeconds;
     Estimate.crackTime := crackTime;
     Estimate.suggestion := feedback;
     Estimate.variety := variety;
     Estimate.score := Zxcvbn.score result;
     Estimate.meterPercent :=
       meterPercentFromGuessesLog10 (Zxcvbn.guesses_log10 result) |}.

End App.

(** ** The version of [App.tsx] with its own entropy and crack-time model
    (no oracle) *)

Module Part002.

Module Estimate.
Record t : Type := {
  entropy : Z;
  crackSeconds : Q;
  crackTime : string;
  suggestion : option string;
  variety : Z
}.
End Estimate.

Module CHARACTER_SETS.
Definition lower : Z := Z.of_nat (String.length "abcdefghijklmnopqrstuvwxyz").
Definition upper : Z := Z.of_nat (String.length "ABCDEFGHIJKLMNOPQRSTUVWXYZ").
Definition digits : Z := Z.of_nat (String.length "0123456789").
Definition symbols : Z :=
  Z.of_nat (String.length
    ("!@#$%^&*()-_=+[]{};:'" ++ String (ascii_of_nat 34) ",.<>/?`~|")).
End CHARACTER_SETS.

(** [a < b] on finite numbers. *)
Definition lt (a b : Q) : bool := negb (Qle_bool b a).

Definition units : list (Q * string) :=
  [ (60, "second"); (60, "minute"); (24, "hour"); (365, "day");
    (100, "year") ]%string.

(** The [for ... of units] loop, from the state [(value, unit)]: a [break]
    leaves with the current value, the end of the list with the last
    division done. *)
Fixpoint ladder (units : list (Q * string)) (value : Q) (unit : string)
  : Q * string :=
  match units with
  | [] => (value, unit)
  | (step, name) :: rest =>
      if lt value step then (value, name)
      else ladder rest (value / step) name
  end.

Definition finite_value (x : JS.Number) : Q :=
  match x with JS.Finite q => q | _ => 0 end.

Definition formatDuration (seconds : JS.Number) : string :=
  if negb (JS.isFinite seconds) || JS.le_zero seconds
  then "almost instantly"%string
  else
    let '(value, unit) := ladder units (finite_value seconds) "second" in
    let rounded :=
      if lt value 10
      then inject_Z (JS.Math_round (value * 10)) / 10
      else inject_Z (JS.Math_round value) in
    let suffix := if Qeq_bool rounded 1 then EmptyString else "s"%string in
    (JS.toString rounded ++ " " ++ unit ++ suffix)%string.

(** The object that [passwordFeedback] returns. *)
Module Feedback.
Record t : Type := {
  entropy : Z;
  variety : Z;
  suggestions : list string
}.
End Feedback.

Section WithLog2.

(** [Math.log2], a library function. *)
Variable Math_log2 : Z -> Q.

Definition estimateEntropy (password : JS.str) : Z :=
  let charsetSize := 0%Z in
  let charsetSize :=
    if JS.test JS.re_lower password
    then (charsetSize + CHARACTER_SETS.lower)%Z else charsetSize in
  let charsetSize :=
    if JS.test JS.re_upper password
    then (charsetSize + CHARACTER_SETS.upper)%Z else charsetSize in
  let charsetSize :=
    if JS.test JS.re_digit password
    then (charsetSize + CHARACTER_SETS.digits)%Z else charsetSize in
  let charsetSize :=
    if JS.test JS.re_other password
    then (charsetSize + CHARACTER_SETS.symbols)%Z else charsetSize in
  let length := JS.length password in
  if (length =? 0)%Z || (charsetSize =? 0)%Z then 0%Z
  else JS.Math_round (inject_Z length * Math_log2 charsetSize).

Definition estimateCrackTimeSeconds (password : JS.str) : Q :=
  let entropy := estimateEntropy password in
  let guessesPerSecond := 10000000000 in
  let totalGuesses := 2 ^ entropy in
  totalGuesses / guessesPerSecond / 2.

Definition passwordFeedback (password : JS.str) : Feedback.t :=
  let entropy := estimateEntropy password in
  let variety :=
    Z.of_nat (List.length
      (filter (fun regex => JS.test regex password)
         [JS.re_lower; JS.re_upper; JS.re_digit; JS.re_other])) in
  let suggestions := [] in
  let suggestions :=
    if (JS.length password <? 12)%Z
    then suggestions ++ ["Try a longer password or passphrase."%string]
    else suggestions in
  let suggestions :=
    if (variety <? 3)%Z
    then suggestions ++ ["Mix uppercase, lowercase, numbers, and symbols."%string]
    else suggestions in
  let suggestions :=
    if negb (JS.test JS.re_space password) && (16 <=? JS.length password)%Z
    then suggestions ++ ["Passphrases with spaces are memorable and strong."%string]
    else suggestions in
  let suggestions :=
    if (Z.of_nat (List.length suggestions) =? 0)%Z
    then suggestions ++ ["Nice job! This looks strong."%string]
    else suggestions in
  {| Feedback.entropy := entropy; Feedback.variety := variety;
     Feedback.suggestions := suggestions |}.

Definition scorePassword (password : JS.str) : Estimate.t :=
  let entropy := estimateEntropy password in
  let crackSeconds := estimateCrackTimeSeconds password in
  let feedback := passwordFeedback password in
  {| Estimate.entropy := entropy;
     Estimate.crackSeconds := crackSeconds;
     Estimate.crackTime := formatDuration (JS.Finite crackSeconds);
     Estimate.suggestion :=
       if negb (JS.length password =? 0)%Z
       then JS.index (Feedback.suggestions feedback) 0
       else Some "Type a password to see how strong it is!"%string;
     Estimate.variety := Feedback.variety feedback |}.

End WithLog2.

Module Level.
Record t : Type := {
  minEntropy : Z;
  label : string;
  color : string
}.
End Level.

Definition LEVELS : list Level.t :=
  [ {| Level.minEntropy := 0; Level.label := "Very weak"; Level.color := "#ef4444" |};
    {| Level.minEntropy := 30; Level.label := "Okay"; Level.color := "#f59e0b" |};
    {| Level.minEntropy := 45; Level.label := "Strong"; Level.color := "#10b981" |};
    {| Level.minEntropy := 60; Level.label := "Excellent"; Level.color := "#14b8a6" |} ].

Definition strengthFromEntropy (entropy : Z) : option Level.t :=
  fold_left
    (fun current level =>
       if (Level.minEntropy level <=? entropy)%Z then Some level else current)
    LEVELS (JS.index LEVELS 0).

End Part002.

(** ** The first version of [App.tsx] that calls the oracle *)

Module Part001.

Module Estimate.
Record t : Type := {
  entropy : Z;
  crackSeconds : JS.Number;
  crackTime : string;
  suggestion : string;
  variety : Z
}.
End Estimate.

Definition lt (a b : Q) : bool := negb (Qle_bool b a).

Definition units : list (Q * string) :=
  [ (60, "second"); (60, "minute"); (24, "hour"); (365, "day");
    (100, "year") ]%string.

Fixpoint ladder (units : list (Q * string)) (value : Q) (unit : string)
  : Q * string :=
  match units with
  | [] => (value, unit)
  | (step, name) :: rest =>
      if lt value step then (value, name)
      else ladder rest (value / step) name
  end.

Definition finite_value (x : JS.Number) : Q :=
  match x with JS.Finite q => q | _ => 0 end.

(** [friendlyDisplay] is an optional argument: [None] when left out. *)
Definition formatDuration (seconds : JS.Number)
    (friendlyDisplay : option string) : string :=
  if JS.truthy friendlyDisplay then JS.nullish friendlyDisplay EmptyString
  else if negb (JS.isFinite seconds) || JS.le_zero seconds
  then "almost instantly"%string
  else
    let '(value, unit) := ladder units (finite_value seconds) "second" in
    let rounded :=
      if lt value 10
      then inject_Z (JS.Math_round (value * 10)) / 10
      else inject_Z (JS.Math_round value) in
    let suffix := if Qeq_bool rounded 1 then EmptyString else "s"%string in
    (JS.toString rounded ++ " " ++ unit ++ suffix)%string.

(** [!password] holds of the empty string only. *)
Definition scorePassword (zxcvbn : Zxcvbn.Oracle) (password : JS.str)
  : Estimate.t :=
  if (JS.length password =? 0)%Z then
    {| Estimate.entropy := 0;
       Estimate.crackSeconds := JS.Finite 0;
       Estimate.crackTime := "Type a password to see how strong it is!";
       Estimate.suggestion := "Type a password to see how strong it is!";
       Estimate.variety := 0 |}
  else
    let result := zxcvbn password in
    let entropy :=
      JS.Math_max 0
        (JS.Math_round
           (Zxcvbn.guesses_log10 result * (332192809489 # 100000000000))) in
    let crackSeconds :=
      Zxcvbn.offline_fast_hashing_1e10_per_second
        (Zxcvbn.crack_times_seconds result) in
    let crackDisplay :=
      Zxcvbn.offline_fast_hashing_1e10_per_second
        (Zxcvbn.crack_times_display result) in
    let variety :=
      Z.of_nat (List.length
        (filter (fun regex => JS.test regex password)
           [JS.re_lower; JS.re_upper; JS.re_digit; JS.re_other])) in
    let fallbackSuggestion :=
      JS.or_default
        (JS.or_undef (Zxcvbn.warning (Zxcvbn.feedback result))
           (JS.index (Zxcvbn.suggestions (Zxcvbn.feedback result)) 0))
        "Passphrases with a mix of words and symbols are powerful."%string in
    {| Estimate.entropy := entropy;
       Estimate.crackSeconds := crackSeconds;
       Estimate.crackTime := formatDuration crackSeconds (Some crackDisplay);
       Estimate.suggestion := fallbackSuggestion;
       Estimate.variety := variety |}.

Module Level.
Record t : Type := {
  minEntropy : Z;
  label : string;
  color : string
}.
End Level.

Definition LEVELS : list Level.t :=
  [ {| Level.minEntropy := 0; Level.label := "Very weak"; Level.color := "#ef4444" |};
    {| Level.minEntropy := 28; Level.label := "Weak"; Level.color := "#f87171" |};
    {| Level.minEntropy := 36; Level.label := "Okay"; Level.color := "#f59e0b" |};
    {| Level.minEntropy := 45; Level.label := "Strong"; Level.color := "#10b981" |};
    {| Level.minEntropy := 60; Level.label := "Excellent"; Level.color := "#14b8a6" |} ].

(** [LEVELS.reduce((current, level) => ..., LEVELS[0])]; the initial value
    [LEVELS[0]] of an empty table would be [undefined], hence the option. *)
Definition strengthFromEntropy (entropy : Z) : option Level.t :=
  fold_left
    (fun current level =>
       if (Level.minEntropy level <=? entropy)%Z then Some level else current)
    LEVELS (JS.index LEVELS 0).

(** The width of the meter's fill, in percent, as [App] renders it:
    [Math.min(estimate.entropy, 80) + 20]. *)
Definition fillWidth (estimate : Estimate.t) : Z :=
  (Z.min (Estimate.entropy estimate) 80 + 20)%Z.

End Part001.

(** ** The version of [App.tsx] whose meter takes [hasInput]

    Its [LEVELS], [strengthFromScore] and [varietyLabel] are those of
    [App.tsx] above. *)

Module Part003.

Local Open Scope R_scope.

Module Estimate.
Record t : Type := {
  entropy : Z;
  crackSeconds : JS.Number;
  crackTime : string;
  suggestion : string;
  variety : Z;
  score : Z;
  meterPercent : R
}.
End Estimate.

Definition LOG2_10 : Q := (JS.Math_LN10 / JS.Math_LN2)%Q.

Definition clamp (n min max : R) : R := Rmin (Rmax n min) max.

(** [Math.pow] on a base that is not negative and a positive exponent:
    0 at 0, and the real power elsewhere. *)
Definition Math_pow (x y : R) : R :=
  if Req_dec_T x 0 then 0 else Rpower x y.

(** [Math.round] on a real number. *)
Definition Math_round (x : R) : Z := Zfloor (x + 1 / 2).

(** The local [curved] of [meterPercentFromGuessesLog10]. *)
Definition curved (guessesLog10 : R) : R :=
  let min := 3 in
  let max := 24 in
  let t := clamp ((guessesLog10 - min) / (max - min)) 0 1 in
  let gamma := 72 / 100 in
  Math_pow t gamma.

Definition meterPercentFromGuessesLog10 (guessesLog10 : R)
    (hasInput : bool) : R :=
  let pct := IZR (Math_round (curved guessesLog10 * 100)) in
  if negb hasInput then 0 else clamp pct 1 100.

Definition scorePassword (zxcvbn : Zxcvbn.Oracle) (password : JS.str)
  : Estimate.t :=
  let result := zxcvbn password in
  let variety :=
    Z.of_nat (List.length
      (filter (fun regex => JS.test regex password)
         [JS.re_lower; JS.re_upper; JS.re_digit; JS.re_other])) in
  let entropy :=
    JS.Math_max 0
      (JS.Math_round (Zxcvbn.guesses_log10 result * LOG2_10)%Q) in
  let crackSeconds :=
    Zxcvbn.offline_slow_hashing_1e4_per_second
      (Zxcvbn.crack_times_seconds result) in
  let crackTime :=
    Zxcvbn.offline_slow_hashing_1e4_per_second
      (Zxcvbn.crack_times_display result) in
  let feedback :=
    if (JS.length password =? 0)%Z
    then "Type a password to see how strong it is!"%string
    else
      JS.or_default
        (JS.or_undef (Zxcvbn.warning (Zxcvbn.feedback result))
           (JS.index (Zxcvbn.suggestions (Zxcvbn.feedback result)) 0))
        "Nice job! This looks strong."%string in
  {| Estimate.entropy := entropy;
     Estimate.crackSeconds := crackSeconds;
     Estimate.crackTime := crackTime;
     Estimate.suggestion := feedback;
     Estimate.variety := variety;
     Estimate.score := Zxcvbn.score result;
     Estimate.meterPercent :=
       meterPercentFromGuessesLog10 (Q2R (Zxcvbn.guesses_log10 result))
         (0 <? JS.length password)%Z |}.

End Part003.

(** ** The entropy line in binary64

    [Math.max(0, Math.round(result.guesses_log10 * LOG2_10))] multiplies two
    binary64 numbers, and the product is rounded to binary64 before
    [Math.round] sees it.  Here the line is embedded on binary64 numbers:
    [spec_float] with a mantissa of 53 bits and exponents up to 1024, the
    product and the quotient rounded to nearest, ties to even. *)

Module Binary64.

Definition number : Type := spec_float.

Definition mul (x y : number) : number := SFmul 53 1024 x y.
Definition div (x y : number) : number := SFdiv 53 1024 x y.

Definition isFinite (x : number) : bool :=
  match x with
  | S754_zero _ | S754_finite _ _ _ => true
  | S754_infinity _ | S754_nan => false
  end.

(** The rational number that a finite binary64 number stands for. *)
Definition value (x : number) : Q :=
  match x with
  | S754_finite s m e =>
      (if s then - inject_Z (Zpos m) else inject_Z (Zpos m)) * 2 ^ e
  | _ => 0
  end.

(** [Math.round]: the integer nearest to [x], a tie going up; the
    infinities and NaN are returned as they are. *)
Definition Math_round (x : number) : JS.Number :=
  match x with
  | S754_nan => JS.NaN
  | S754_infinity false => JS.PosInfinity
  | S754_infinity true => JS.NegInfinity
  | _ => JS.Finite (inject_Z (Qfloor (value x + (1 # 2))))
  end.

(** [Math.max(0, y)] *)
Definition Math_max_0 (y : JS.Number) : JS.Number :=
  match y with
  | JS.Finite q => if Qle_bool q 0 then JS.Finite 0 else JS.Finite q
  | JS.PosInfinity => JS.PosInfinity
  | JS.NegInfinity => JS.Finite 0
  | JS.NaN => JS.NaN
  end.

(** [Math.LN10] and [Math.LN2] *)
Definition Math_LN10 : number := S754_finite false 5184960683398422 (-51).
Definition Math_LN2 : number := S754_finite false 6243314768165359 (-53).

(** [const LOG2_10 = Math.LN10 / Math.LN2] *)
Definition LOG2_10 : number := div Math_LN10 Math_LN2.

(** The entropy line of [App.tsx] (and of the version whose meter takes
    [hasInput]), on the oracle's [guesses_log10]. *)
Definition entropy (guesses_log10 : number) : JS.Number :=
  Math_max_0 (Math_round (mul guesses_log10 LOG2_10)).

(** The literal [3.32192809489] of the first oracle version: the binary64
    number nearest to that decimal. *)
Definition literal_3_32192809489 : number :=
  S754_finite false 7480317065149093 (-51).

(** The entropy line of the first oracle version. *)
Definition entropy_first_version (guesses_log10 : number) : JS.Number :=
  Math_max_0 (Math_round (mul guesses_log10 literal_3_32192809489)).

(** Two answers of the oracle near a tie: 1.3546349804879152 and
    1.3546349804874. *)
Definition guesses_at_tie : number := S754_finite false 6100733593348414 (-52).
Definition guesses_near_tie : number := S754_finite false 6100733593346094 (-52).

End Binary64.

(** ** [client/src/Tooltip.tsx]

    The component keeps one piece of state, [open], which starts false and
    which its five event handlers set.  What it renders is kept as the
    attributes that depend on the state and on the properties. *)

Module Tooltip.

Inductive Event : Type :=
| MouseEnter
| MouseLeave
| Focus
| Blur
| Click.

(** The handler of each event, as the next value of [open]. *)
Definition handle (open : bool) (e : Event) : bool :=
  match e with
  | MouseEnter => true
  | MouseLeave => false
  | Focus => true
  | Blur => false
  | Click => negb open
  end.

(** The state after a sequence of events, from [useState(false)]. *)
Definition run (events : list Event) : bool := fold_left handle events false.

Section WithContent.

(** [ReactNode], the type of what the bubble shows. *)
Variable ReactNode : Type.

Record TooltipProps : Type := {
  label : string;
  content : ReactNode;
  className : option string
}.

(** The rendered tree: the class of the outer span, the two aria
    attributes of the button, and the bubble (its id and content) when it
    is rendered. *)
Record View : Type := {
  span_className : string;
  aria_label : string;
  aria_describedby : option string;
  bubble : option (string * ReactNode)
}.

Definition render (props : TooltipProps) (id : string) (open : bool) : View :=
  {| span_className := ("tip " ++ JS.nullish (className props) EmptyString)%string;
     aria_label := label props;
     aria_describedby := if open then Some id else None;
     bubble := if open then Some (id, content props) else None |}.

End WithContent.

End Tooltip.

(** ** The specification's own words, as definitions to compare with *)

Module Spec.

Definition is_lowercase (c : N) : bool := (JS.cu "a" <=? c)%N && (c <=? JS.cu "z")%N.
Definition is_uppercase (c : N) : bool := (JS.cu "A" <=? c)%N && (c <=? JS.cu "Z")%N.
Definition is_digit (c : N) : bool := (JS.cu "0" <=? c)%N && (c <=? JS.cu "9")%N.
Definition is_other (c : N) : bool :=
  negb (is_lowercase c || is_uppercase c || is_digit c).

Definition has_lowercase (p : JS.str) : bool := existsb is_lowercase p.
Definition has_uppercase (p : JS.str) : bool := existsb is_uppercase p.
Definition has_digit (p : JS.str) : bool := existsb is_digit p.
Definition has_other (p : JS.str) : bool := existsb is_other p.

(** The number of satisfied classes, each counting once. *)
Definition variety (p : JS.str) : Z :=
  (Z.b2z (has_lowercase p) + Z.b2z (has_uppercase p)
   + Z.b2z (has_digit p) + Z.b2z (has_other p))%Z.

(** The priority among the feedback sources: the warning if it is not
    empty, else the first suggestion if there is one, else the fallback. *)
Definition suggestion_by_priority (warning : string)
    (suggestions : list string) (fallback : string) : string :=
  if String.eqb warning EmptyString then
    match suggestions with
    | first :: _ => first
    | [] => fallback
    end
  else warning.

(** The same priority, with an empty first suggestion passed over like a
    missing one. *)
Definition suggestion_by_truthiness (warning : string)
    (suggestions : list string) (fallback : string) : string :=
  if String.eqb warning EmptyString then
    match suggestions with
    | first :: _ =>
        if String.eqb first EmptyString then fallback else first
    | [] => fallback
    end
  else warning.

Definition prompt : string := "Type a password to see how strong it is!".

(** Rounding to the nearest integer, a tie going away from zero. *)
Definition round_half_away_from_zero (x : Q) : Z :=
  if Qle_bool 0 x then Qfloor (x + (1 # 2))
  else (- Qfloor (- x + (1 # 2)))%Z.

(** The unit ladder of the duration formatter: the divisor that leads to
    each next unit. *)
Definition unit_ladder : list (Q * string) :=
  [ (60, "minute"); (60, "hour"); (24, "day"); (365, "year") ]%string.

(** Divide along the ladder, stopping at the first unit where the value
    is below the next step. *)
Fixpoint divide_along (ladder : list (Q * string)) (value : Q)
    (unit : string) : Q * string :=
  match ladder with
  | [] => (value, unit)
  | (step, next) :: rest =>
      if Qle_bool step value then divide_along rest (value / step) next
      else (value, unit)
  end.

(** One decimal place below 10, the nearest integer from 10 on. *)
Definition round_for_display (value : Q) : Q :=
  if Qle_bool 10 value then inject_Z (Qfloor (value + (1 # 2)))
  else inject_Z (Qfloor (value * 10 + (1 # 2))) / 10.

(** The duration text of a positive finite number of seconds. *)
Definition formatDuration (seconds : Q) : string :=
  let '(value, unit) := divide_along unit_ladder seconds "second" in
  let rounded := round_for_display value in
  (JS.toString rounded ++ " " ++ unit
     ++ (if Qeq_bool rounded 1 then EmptyString else "s"))%string.

End Spec.

(** ** Sample oracles, to run the estimator on *)

Module Sample.

(** A result with the given guess magnitude and feedback. *)
Definition result (guesses_log10 : Q) (warning : string)
    (suggestions : list string) : Zxcvbn.Result :=
  {| Zxcvbn.guesses_log10 := guesses_log10;
     Zxcvbn.crack_times_seconds :=
       {| Zxcvbn.online_throttling_100_per_hour := JS.Finite 36000000;
          Zxcvbn.online_no_throttling_10_per_second := JS.Finite 100000;
          Zxcvbn.offline_slow_hashing_1e4_per_second := JS.Finite 100;
          Zxcvbn.offline_fast_hashing_1e10_per_second :=
            JS.Finite (1 # 10000) |};
     Zxcvbn.crack_times_display :=
       {| Zxcvbn.online_throttling_100_per_hour := "1 year"%string;
          Zxcvbn.online_no_throttling_10_per_second := "1 day"%string;
          Zxcvbn.offline_slow_hashing_1e4_per_second := "2 minutes"%string;
          Zxcvbn.offline_fast_hashing_1e10_per_second :=
            "less than a second"%string |};
     Zxcvbn.feedback :=
       {| Zxcvbn.warning := warning; Zxcvbn.suggestions := suggestions |};
     Zxcvbn.score := 1 |}.

(** An oracle that gives the same answer for every password. *)
Definition oracle (guesses_log10 : Q) (warning : string)
    (suggestions : list string) : Zxcvbn.Oracle :=
  fun _ => result guesses_log10 warning suggestions.

End Sample.

(** ** Names for parts of the source that the statements refer to *)

(** The expression's [filter(...).length] over the four expressions. *)
Definition class_count (p : JS.str) : Z :=
  Z.of_nat (List.length
    (filter (fun regex => JS.test regex p)
       [JS.re_lower; JS.re_upper; JS.re_digit; JS.re_other])).

(** The first and the last entry of [LEVELS]. *)
Definition weakest : App.Level.t :=
  {| App.Level.score := 0; App.Level.label := "Very weak";
     App.Level.color := "#ef4444" |}.

Definition strongest : App.Level.t :=
  {| App.Level.score := 4; App.Level.label := "Excellent";
     App.Level.color := "#14b8a6" |}.

(** The local [charsetSize] of [estimateEntropy], once the four tests are
    done. *)
Definition charset_size (p : JS.str) : Z :=
  ((if JS.test JS.re_lower p then Part002.CHARACTER_SETS.lower else 0)
   + (if JS.test JS.re_upper p then Part002.CHARACTER_SETS.upper else 0)
   + (if JS.test JS.re_digit p then Part002.CHARACTER_SETS.digits else 0)
   + (if JS.test JS.re_other p then Part002.CHARACTER_SETS.symbols else 0))%Z.

(** The four labels that [varietyLabel] has in its table. *)
Definition variety_labels : list string :=
  [ "just one type"; "two types"; "three types"; "four types" ]%string.

(** Whether an event, other than a click, opens or closes the tooltip. *)
Definition opens (e : Tooltip.Event) : bool :=
  match e with
  | Tooltip.MouseEnter | Tooltip.Focus => true
  | _ => false
  end.

Definition is_click (e : Tooltip.Event) : bool :=
  match e with Tooltip.Click => true | _ => false end.

(** ** Character variety *)

Section Variety.

Lemma existsb_pointwise (A : Type) (f g : A -> bool) (l : list A) :
  (forall x, f x = g x) -> existsb f l = existsb g l.
Proof.
  intros Hfg. induction l as [| x l IH]; simpl.
  - reflexivity.
  - rewrite Hfg, IH. reflexivity.
Qed.

Lemma test_lower p : JS.test JS.re_lower p = Spec.has_lowercase p.
Proof.
  apply existsb_pointwise. intros c. unfold Spec.is_lowercase. simpl.
  now rewrite orb_false_r.
Qed.

Lemma test_upper p : JS.test JS.re_upper p = Spec.has_uppercase p.
Proof.
  apply existsb_pointwise. intros c. unfold Spec.is_uppercase. simpl.
  now rewrite orb_false_r.
Qed.

Lemma test_digit p : JS.test JS.re_digit p = Spec.has_digit p.
Proof.
  apply existsb_pointwise. intros c. unfold Spec.is_digit. simpl.
  now rewrite orb_false_r.
Qed.

Lemma test_other p : JS.test JS.re_other p = Spec.has_other p.
Proof.
  apply existsb_pointwise. intros c.
  unfold Spec.is_other, Spec.is_lowercase, Spec.is_uppercase, Spec.is_digit.
  simpl. rewrite orb_false_r, orb_assoc. reflexivity.
Qed.

Lemma class_count_spec p : class_count p = Spec.variety p.
Proof.
  unfold class_count, Spec.variety. cbn [filter].
  rewrite test_lower, test_upper, test_digit, test_other.
  destruct (Spec.has_lowercase p), (Spec.has_uppercase p),
    (Spec.has_digit p), (Spec.has_other p); reflexivity.
Qed.

Lemma spec_variety_range p : (0 <= Spec.variety p <= 4)%Z.
Proof.
  unfold Spec.variety.
  destruct (Spec.has_lowercase p), (Spec.has_uppercase p),
    (Spec.has_digit p), (Spec.has_other p); simpl; lia.
Qed.

Lemma existsb_suffix (f : N -> bool) (p s : JS.str) :
  (Z.b2z (existsb f p) <= Z.b2z (existsb f (p ++ s)))%Z.
Proof.
  rewrite existsb_app.
  destruct (existsb f p), (existsb f s); simpl; lia.
Qed.

Lemma spec_variety_suffix (p s : JS.str) :
  (Spec.variety p <= Spec.variety (p ++ s))%Z.
Proof.
  unfold Spec.variety, Spec.has_lowercase, Spec.has_uppercase,
    Spec.has_digit, Spec.has_other.
  pose proof (existsb_suffix Spec.is_lowercase p s).
  pose proof (existsb_suffix Spec.is_uppercase p s).
  pose proof (existsb_suffix Spec.is_digit p s).
  pose proof (existsb_suffix Spec.is_other p s).
  lia.
Qed.

(** C7. For every password (and whatever the oracle answers), the
    [variety] field that [scorePassword] computes lies between 0 and 4 and
    is the number of classes, among has-lowercase, has-uppercase,
    has-digit and has-other (a code unit that is none of a-z, A-Z, 0-9),
    that the password satisfies, each class counting once. *)
Theorem variety_counts_classes (zxcvbn : Zxcvbn.Oracle) (p : JS.str) :
  App.Estimate.variety (App.scorePassword zxcvbn p) = Spec.variety p
  /\ (0 <= App.Estimate.variety (App.scorePassword zxcvbn p) <= 4)%Z.
Proof.
  change (App.Estimate.variety (App.scorePassword zxcvbn p))
    with (class_count p).
  rewrite class_count_spec. split; [reflexivity | apply spec_variety_range].
Qed.

(** C10. Appending a code unit to a password never lowers its variety:
    in [scorePassword] of [App.tsx] and in [passwordFeedback] of the
    self-contained version alike. *)
Theorem variety_append_monotone (zxcvbn : Zxcvbn.Oracle)
    (Math_log2 : Z -> Q) (p : JS.str) (c : N) :
  (App.Estimate.variety (App.scorePassword zxcvbn p)
     <= App.Estimate.variety (App.scorePassword zxcvbn (p ++ [c])))%Z
  /\ (Part002.Feedback.variety (Part002.passwordFeedback Math_log2 p)
        <= Part002.Feedback.variety (Part002.passwordFeedback Math_log2 (p ++ [c])))%Z.
Proof.
  change (App.Estimate.variety (App.scorePassword zxcvbn p))
    with (class_count p).
  change (App.Estimate.variety (App.scorePassword zxcvbn (p ++ [c])))
    with (class_count (p ++ [c])).
  change (Part002.Feedback.variety (Part002.passwordFeedback Math_log2 p))
    with (class_count p).
  change (Part002.Feedback.variety (Part002.passwordFeedback Math_log2 (p ++ [c])))
    with (class_count (p ++ [c])).
  rewrite !class_count_spec.
  split; apply spec_variety_suffix.
Qed.

Example variety_password123 :
  class_count (JS.lit "password123") = 2%Z.
Proof. reflexivity. Qed.

Example variety_random :
  class_count (JS.lit "7*JGiULWFJtydsK*VdpwtGJw") = 4%Z.
Proof. reflexivity. Qed.

Example variety_non_ascii : class_count [233%N] = 1%Z.
Proof. reflexivity. Qed.

End Variety.

(** ** Tier and variety labels *)

Section Labels.

Lemma LEVELS_first : hd_error App.LEVELS = Some weakest.
Proof. reflexivity. Qed.

Lemma LEVELS_last : last App.LEVELS weakest = strongest.
Proof. reflexivity. Qed.

Lemma LEVELS_size : List.length App.LEVELS = 5%nat.
Proof. reflexivity. Qed.

Lemma find_no_match (s : Z) :
  (forall level, In level App.LEVELS -> App.Level.score level <> s) ->
  find (fun level => (App.Level.score level =? s)%Z) App.LEVELS = None.
Proof.
  intros Hno.
  destruct (find _ App.LEVELS) as [level |] eqn:Hfind; [| reflexivity].
  apply find_some in Hfind. destruct Hfind as [Hin Heq].
  apply Z.eqb_eq in Heq. exfalso. exact (Hno level Hin Heq).
Qed.

(** C8. [strengthFromScore] always returns a tier of the table: the first
    one for the score 0, the last one for the score 4, and the first
    (weakest) one for every integer that no entry of the table carries,
    such as 7. *)
Theorem strengthFromScore_total (s : Z) :
  (exists level, App.strengthFromScore s = Some level /\ In level App.LEVELS)
  /\ App.strengthFromScore 0 = hd_error App.LEVELS
  /\ App.strengthFromScore 4 = Some (last App.LEVELS weakest)
  /\ ((forall level, In level App.LEVELS -> App.Level.score level <> s) ->
      App.strengthFromScore s = Some weakest)
  /\ App.strengthFromScore 7 = Some weakest.
Proof.
  split; [| split; [reflexivity | split; [reflexivity | split; [| reflexivity]]]].
  - unfold App.strengthFromScore.
    destruct (find _ App.LEVELS) as [level |] eqn:Hfind.
    + exists level. split; [reflexivity |].
      apply find_some in Hfind. tauto.
    + exists weakest. split; [reflexivity | simpl; tauto].
  - intros Hno. unfold App.strengthFromScore.
    rewrite (find_no_match s Hno). reflexivity.
Qed.

Lemma strengthFromScore_total_witness :
  App.strengthFromScore (-3) = Some weakest.
Proof.
  destruct (strengthFromScore_total (-3)) as (_ & _ & _ & Hdefault & _).
  apply Hdefault.
  intros level Hin. simpl in Hin.
  repeat (destruct Hin as [<- | Hin]; [simpl; lia |]).
  contradiction.
Defined.

(** C9. [varietyLabel] is defined on every integer: 1, 2, 3 and 4 give
    their four labels, 0 gives "no variety yet", and so does every
    integer below 0 or above 4. *)
Theorem varietyLabel_total (v : Z) :
  App.varietyLabel 1 = "just one type"%string
  /\ App.varietyLabel 2 = "two types"%string
  /\ App.varietyLabel 3 = "three types"%string
  /\ App.varietyLabel 4 = "four types"%string
  /\ App.varietyLabel 0 = "no variety yet"%string
  /\ ((v < 0 \/ 4 < v)%Z -> App.varietyLabel v = "no variety yet"%string).
Proof.
  repeat (split; [reflexivity |]).
  intros Hout. unfold App.varietyLabel, JS.index.
  destruct (v - 1 <? 0)%Z eqn:Hneg; [reflexivity |].
  apply Z.ltb_ge in Hneg.
  assert (Hlen : (4 <= Z.to_nat (v - 1))%nat) by lia.
  match goal with
  | |- JS.nullish (nth_error ?l ?n) _ = _ =>
      assert (Hnone : nth_error l n = None)
        by (apply nth_error_None; simpl; exact Hlen)
  end.
  rewrite Hnone. reflexivity.
Qed.

Lemma varietyLabel_total_witness :
  App.varietyLabel 9 = "no variety yet"%string.
Proof.
  destruct (varietyLabel_total 9) as (_ & _ & _ & _ & _ & Hout).
  apply Hout. right. lia.
Defined.

End Labels.

(** ** Entropy bits *)

Section Entropy.

Lemma Qfloor_nonneg (x : Q) : 0 <= x -> (0 <= Qfloor x)%Z.
Proof.
  intros Hx. change 0%Z with (Qfloor 0). now apply Qfloor_resp_le.
Qed.

Lemma Qfloor_below_one (x : Q) : x < 1 -> (Qfloor x <= 0)%Z.
Proof.
  intros Hx.
  assert (Hlt : inject_Z (Qfloor x) < inject_Z 1).
  { apply Qle_lt_trans with x; [apply Qfloor_le | exact Hx]. }
  rewrite <- Zlt_Qlt in Hlt. lia.
Qed.

(** Flooring at 0 hides the difference between the two ways of breaking
    a tie: they differ on negative numbers only. *)
Lemma floored_round_agree (x : Q) :
  JS.Math_max 0 (JS.Math_round x)
  = Z.max 0 (Spec.round_half_away_from_zero x).
Proof.
  unfold JS.Math_max, JS.Math_round, Spec.round_half_away_from_zero.
  destruct (Qle_bool 0 x) eqn:Hsign; [reflexivity |].
  assert (Hneg : x < 0).
  { apply Qnot_le_lt. intros Hle. apply Qle_bool_iff in Hle. congruence. }
  assert (H1 : (Qfloor (x + (1 # 2)) <= 0)%Z)
    by (apply Qfloor_below_one; Lqa.lra).
  assert (H2 : (0 <= Qfloor (- x + (1 # 2)))%Z)
    by (apply Qfloor_nonneg; Lqa.lra).
  lia.
Qed.

Lemma LOG2_10_value :
  (3321928094887362 # 1000000000000000) < App.LOG2_10
  /\ App.LOG2_10 < (3321928094887363 # 1000000000000000).
Proof. split; reflexivity. Qed.

Lemma max_0_integer (z : Z) :
  Binary64.Math_max_0 (JS.Finite (inject_Z z))
  = JS.Finite (inject_Z (Z.max 0 z)).
Proof.
  unfold Binary64.Math_max_0.
  destruct (Qle_bool (inject_Z z) 0) eqn:Hsign.
  - apply Qle_bool_iff in Hsign. change 0 with (inject_Z 0) in Hsign.
    rewrite <- Zle_Qle in Hsign. rewrite Z.max_l by exact Hsign. reflexivity.
  - assert (Hpos : (0 < z)%Z).
    { apply Z.lt_nge. intros Hle. rewrite Zle_Qle in Hle.
      change (inject_Z 0) with 0 in Hle. apply Qle_bool_iff in Hle.
      congruence. }
    rewrite Z.max_r by lia. reflexivity.
Qed.

Lemma rounded_product (product : Binary64.number) :
  Binary64.isFinite product = true ->
  Binary64.Math_max_0 (Binary64.Math_round product)
  = JS.Finite
      (inject_Z
         (Z.max 0 (Spec.round_half_away_from_zero (Binary64.value product)))).
Proof.
  intros Hfinite.
  assert (Hround : Binary64.Math_round product
                   = JS.Finite
                       (inject_Z (JS.Math_round (Binary64.value product)))).
  { destruct product as [s | s | | s m e]; try discriminate Hfinite;
      reflexivity. }
  rewrite Hround, max_0_integer.
  change (Z.max 0 (JS.Math_round (Binary64.value product)))
    with (JS.Math_max 0 (JS.Math_round (Binary64.value product))).
  rewrite floored_round_agree. reflexivity.
Qed.

(** The two constants of [Binary64] are the ones of the exact model, and
    the literal is within half a unit in the last place of its decimal. *)
Lemma binary64_constants :
  Binary64.value Binary64.Math_LN10 == JS.Math_LN10
  /\ Binary64.value Binary64.Math_LN2 == JS.Math_LN2
  /\ Qabs (Binary64.value Binary64.literal_3_32192809489
           - (332192809489 # 100000000000)) <= 1 # 4503599627370496.
Proof. repeat split; vm_compute; discriminate. Qed.

Lemma scaled_ln (b n : Z) :
  (1 < b)%Z -> (0 <= n)%Z ->
  (IZR n * ln (IZR b) = ln (IZR (b ^ n)))%R.
Proof.
  intros Hb Hn.
  rewrite <- (Z2Nat.id n Hn) at 2.
  rewrite <- pow_IZR, ln_pow by (apply IZR_lt; lia).
  rewrite INR_IZR_INZ, (Z2Nat.id n Hn). reflexivity.
Qed.

Lemma ln_2_positive : (0 < ln 2)%R.
Proof. pose proof ln_lt_2. Lra.lra. Qed.

(** [p / q] is below log2(10) when [2 ^ p < 10 ^ q], and above it when
    [10 ^ q < 2 ^ p]. *)
Lemma ratio_below_log2_10 (p q : Z) :
  (0 <= p)%Z -> (0 < q)%Z -> (2 ^ p < 10 ^ q)%Z ->
  (IZR p / IZR q < ln 10 / ln 2)%R.
Proof.
  intros Hp Hq Hpow. pose proof ln_2_positive as Hln2.
  assert (Hq' : (0 < IZR q)%R) by (apply IZR_lt; lia).
  assert (Hcross : (IZR p * ln 2 < IZR q * ln 10)%R).
  { rewrite (scaled_ln 2 p), (scaled_ln 10 q) by lia.
    apply ln_increasing; [apply IZR_lt, Z.pow_pos_nonneg; lia |].
    apply IZR_lt, Hpow. }
  apply (Rmult_lt_reg_r (IZR q * ln 2)%R);
    [apply Rmult_lt_0_compat; Lra.lra |].
  replace (IZR p / IZR q * (IZR q * ln 2))%R with (IZR p * ln 2)%R
    by (field; Lra.lra).
  replace (ln 10 / ln 2 * (IZR q * ln 2))%R with (IZR q * ln 10)%R
    by (field; Lra.lra).
  exact Hcross.
Qed.

Lemma ratio_above_log2_10 (p q : Z) :
  (0 <= p)%Z -> (0 < q)%Z -> (10 ^ q < 2 ^ p)%Z ->
  (ln 10 / ln 2 < IZR p / IZR q)%R.
Proof.
  intros Hp Hq Hpow. pose proof ln_2_positive as Hln2.
  assert (Hq' : (0 < IZR q)%R) by (apply IZR_lt; lia).
  assert (Hcross : (IZR q * ln 10 < IZR p * ln 2)%R).
  { rewrite (scaled_ln 2 p), (scaled_ln 10 q) by lia.
    apply ln_increasing; [apply IZR_lt, Z.pow_pos_nonneg; lia |].
    apply IZR_lt, Hpow. }
  apply (Rmult_lt_reg_r (IZR q * ln 2)%R);
    [apply Rmult_lt_0_compat; Lra.lra |].
  replace (IZR p / IZR q * (IZR q * ln 2))%R with (IZR p * ln 2)%R
    by (field; Lra.lra).
  replace (ln 10 / ln 2 * (IZR q * ln 2))%R with (IZR q * ln 10)%R
    by (field; Lra.lra).
  exact Hcross.
Qed.

(** log2(10) lies between two of its continued-fraction convergents,
    which are less than 3e-8 apart. *)
Lemma log2_10_between :
  (13301 / 4004 < ln 10 / ln 2 < 28738 / 8651)%R.
Proof.
  split.
  - apply (ratio_below_log2_10 13301 4004); [lia | lia |].
    apply Z.ltb_lt. vm_compute. reflexivity.
  - apply (ratio_above_log2_10 28738 8651); [lia | lia |].
    apply Z.ltb_lt. vm_compute. reflexivity.
Qed.




End Entropy.

(** ** The meter of [App.tsx]: ease-out over the window from 2 to 18 *)

Section MeterEaseOut.

Lemma clamp_unit_range (n : Q) : 0 <= App.clamp n 0 1 /\ App.clamp n 0 1 <= 1.
Proof.
  unfold App.clamp. split.
  - apply Q.min_glb; [apply Q.le_max_r | Lqa.lra].
  - apply Q.le_min_r.
Qed.

Lemma clamp_unit_mono (a b : Q) :
  a <= b -> App.clamp a 0 1 <= App.clamp b 0 1.
Proof.
  intros Hab. unfold App.clamp.
  apply Q.min_le_compat_r, Q.max_le_compat_r, Hab.
Qed.

(** The position in the window, the local [t] of the source. *)
Lemma meter_as_polynomial (g : Q) :
  App.meterPercentFromGuessesLog10 g
  == (1 - (1 - App.clamp ((g - 2) / (18 - 2)) 0 1)
          * (1 - App.clamp ((g - 2) / (18 - 2)) 0 1)) * 100.
Proof. unfold App.meterPercentFromGuessesLog10. simpl Qpower. reflexivity. Qed.

Lemma window_position_mono (x y : Q) :
  x <= y -> (x - 2) / (18 - 2) <= (y - 2) / (18 - 2).
Proof.
  intros Hxy.
  assert (Hx : (x - 2) / (18 - 2) == (x - 2) * (1 # 16)) by field.
  assert (Hy : (y - 2) / (18 - 2) == (y - 2) * (1 # 16)) by field.
  rewrite Hx, Hy. Lqa.lra.
Qed.

Lemma ease_out_mono (x y : Q) :
  x <= y ->
  App.meterPercentFromGuessesLog10 x <= App.meterPercentFromGuessesLog10 y.
Proof.
  intros Hxy. rewrite !meter_as_polynomial.
  pose proof (clamp_unit_mono _ _ (window_position_mono x y Hxy)) as Hmono.
  destruct (clamp_unit_range ((x - 2) / (18 - 2))) as [Hx0 Hx1].
  destruct (clamp_unit_range ((y - 2) / (18 - 2))) as [Hy0 Hy1].
  set (tx := App.clamp ((x - 2) / (18 - 2)) 0 1) in *.
  set (ty := App.clamp ((y - 2) / (18 - 2)) 0 1) in *.
  Lqa.nra.
Qed.

Lemma ease_out_range (g : Q) :
  0 <= App.meterPercentFromGuessesLog10 g
  /\ App.meterPercentFromGuessesLog10 g <= 100.
Proof.
  rewrite !meter_as_polynomial.
  destruct (clamp_unit_range ((g - 2) / (18 - 2))) as [H0 H1].
  set (t := App.clamp ((g - 2) / (18 - 2)) 0 1) in *.
  split; Lqa.nra.
Qed.

Lemma ease_out_floor : App.meterPercentFromGuessesLog10 2 == 0.
Proof. reflexivity. Qed.

Lemma ease_out_ceiling : App.meterPercentFromGuessesLog10 18 == 100.
Proof. reflexivity. Qed.

Lemma ease_out_at_3 : App.meterPercentFromGuessesLog10 3 == 775 # 64.
Proof. reflexivity. Qed.

Lemma ease_out_at_3_fractional :
  ~ exists z : Z, App.meterPercentFromGuessesLog10 3 == inject_Z z.
Proof.
  intros [z Hz]. rewrite ease_out_at_3 in Hz.
  unfold Qeq in Hz. simpl in Hz. lia.
Qed.

End MeterEaseOut.

(** ** The meter that takes [hasInput]: a power curve over the window from
    3 to 24 *)

Section MeterGamma.

Local Open Scope R_scope.

Lemma clamp_mono (a b lo hi : R) :
  a <= b -> Part003.clamp a lo hi <= Part003.clamp b lo hi.
Proof.
  intros Hab. unfold Part003.clamp.
  apply Rle_min_compat_r, Rle_max_compat_r, Hab.
Qed.

Lemma clamp_range (n lo hi : R) :
  lo <= hi -> lo <= Part003.clamp n lo hi <= hi.
Proof.
  intros Hlohi. unfold Part003.clamp. split.
  - apply Rmin_glb; [apply Rmax_r | exact Hlohi].
  - apply Rmin_r.
Qed.

Lemma clamp_inside (n lo hi : R) :
  lo <= n <= hi -> Part003.clamp n lo hi = n.
Proof.
  intros [Hlo Hhi]. unfold Part003.clamp.
  rewrite (Rmax_left n lo Hlo). apply Rmin_left, Hhi.
Qed.

Lemma clamp_below (n lo hi : R) :
  n <= lo -> lo <= hi -> Part003.clamp n lo hi = lo.
Proof.
  intros Hn Hlohi. unfold Part003.clamp.
  rewrite (Rmax_right n lo Hn). apply Rmin_left, Hlohi.
Qed.

Lemma clamp_above (n lo hi : R) :
  hi <= n -> lo <= hi -> Part003.clamp n lo hi = hi.
Proof.
  intros Hn Hlohi. unfold Part003.clamp.
  rewrite (Rmax_left n lo) by Lra.lra. apply Rmin_right, Hn.
Qed.

Lemma Math_pow_0 (y : R) : Part003.Math_pow 0 y = 0.
Proof.
  unfold Part003.Math_pow.
  destruct (Req_dec_T 0 0) as [_ | Hne]; [reflexivity | now elim Hne].
Qed.

Lemma Math_pow_1 (y : R) : Part003.Math_pow 1 y = 1.
Proof.
  unfold Part003.Math_pow.
  destruct (Req_dec_T 1 0) as [Heq | _]; [Lra.lra |].
  unfold Rpower. rewrite ln_1, Rmult_0_r. apply exp_0.
Qed.

Lemma Math_pow_nonneg (x y : R) : 0 <= Part003.Math_pow x y.
Proof.
  unfold Part003.Math_pow.
  destruct (Req_dec_T x 0) as [_ | _]; [Lra.lra |].
  unfold Rpower. left. apply exp_pos.
Qed.

Lemma Math_pow_mono (x y e : R) :
  0 <= e -> 0 <= x <= y -> Part003.Math_pow x e <= Part003.Math_pow y e.
Proof.
  intros He [Hx Hxy]. unfold Part003.Math_pow.
  destruct (Req_dec_T x 0) as [Hx0 | Hx0], (Req_dec_T y 0) as [Hy0 | Hy0].
  - Lra.lra.
  - unfold Rpower. left. apply exp_pos.
  - exfalso. apply Hx0. Lra.lra.
  - apply Rle_Rpower_l; [exact He | split; [Lra.lra | exact Hxy]].
Qed.

Lemma window_position_mono_gamma (x y : R) :
  x <= y -> (x - 3) / (24 - 3) <= (y - 3) / (24 - 3).
Proof.
  intros Hxy. unfold Rdiv. apply Rmult_le_compat_r; [| Lra.lra].
  left. apply Rinv_0_lt_compat. Lra.lra.
Qed.

Lemma curved_mono (x y : R) :
  x <= y -> Part003.curved x <= Part003.curved y.
Proof.
  intros Hxy. unfold Part003.curved.
  apply Math_pow_mono; [Lra.lra |]. split.
  - apply (clamp_range _ 0 1). Lra.lra.
  - apply clamp_mono, window_position_mono_gamma, Hxy.
Qed.

Lemma curved_range (g : R) : 0 <= Part003.curved g <= 1.
Proof.
  unfold Part003.curved. split; [apply Math_pow_nonneg |].
  apply Rle_trans with (Part003.Math_pow 1 (72 / 100));
    [| rewrite Math_pow_1; Lra.lra].
  apply Math_pow_mono; [Lra.lra |].
  apply (clamp_range _ 0 1). Lra.lra.
Qed.

Lemma curved_floor : Part003.curved 3 = 0.
Proof.
  unfold Part003.curved.
  replace ((3 - 3) / (24 - 3)) with 0 by (unfold Rdiv; Lra.lra).
  rewrite clamp_inside by Lra.lra. apply Math_pow_0.
Qed.

Lemma curved_ceiling : Part003.curved 24 = 1.
Proof.
  unfold Part003.curved.
  replace ((24 - 3) / (24 - 3)) with 1 by (field; Lra.lra).
  rewrite clamp_inside by Lra.lra. apply Math_pow_1.
Qed.

Lemma Math_round_mono (x y : R) :
  x <= y -> (Part003.Math_round x <= Part003.Math_round y)%Z.
Proof.
  intros Hxy. unfold Part003.Math_round. apply Zfloor_le. Lra.lra.
Qed.

Lemma Math_round_integer (z : Z) : Part003.Math_round (IZR z) = z.
Proof.
  unfold Part003.Math_round. apply Zfloor_eq. Lra.lra.
Qed.

(** The rounded percentage, the local [pct] of the source, is an integer
    from 0 to 100. *)
Lemma pct_range (g : R) :
  (0 <= Part003.Math_round (Part003.curved g * 100) <= 100)%Z.
Proof.
  destruct (curved_range g) as [H0 H1].
  split.
  - rewrite <- (Math_round_integer 0) at 1. apply Math_round_mono. Lra.lra.
  - rewrite <- (Math_round_integer 100) at 2. apply Math_round_mono. Lra.lra.
Qed.

Lemma clamp_integer (z lo hi : Z) :
  (lo <= hi)%Z ->
  Part003.clamp (IZR z) (IZR lo) (IZR hi) = IZR (Z.min (Z.max z lo) hi).
Proof.
  intros Hlohi.
  destruct (Z_lt_le_dec z lo) as [Hlow | Hlow].
  - rewrite clamp_below; [| apply IZR_le; lia | apply IZR_le; lia].
    f_equal. lia.
  - destruct (Z_lt_le_dec hi z) as [Hhigh | Hhigh].
    + rewrite clamp_above; [| apply IZR_le; lia | apply IZR_le; lia].
      f_equal. lia.
    + rewrite clamp_inside; [| split; apply IZR_le; lia].
      f_equal. lia.
Qed.

Lemma meter_with_input (g : R) :
  Part003.meterPercentFromGuessesLog10 g true
  = IZR (Z.min (Z.max (Part003.Math_round (Part003.curved g * 100)) 1) 100).
Proof.
  unfold Part003.meterPercentFromGuessesLog10. simpl negb. cbv iota.
  apply clamp_integer. lia.
Qed.

Lemma meter_without_input (g : R) :
  Part003.meterPercentFromGuessesLog10 g false = 0.
Proof. reflexivity. Qed.

Lemma gamma_mono (x y : R) (hasInput : bool) :
  x <= y ->
  Part003.meterPercentFromGuessesLog10 x hasInput
  <= Part003.meterPercentFromGuessesLog10 y hasInput.
Proof.
  intros Hxy. destruct hasInput.
  - rewrite !meter_with_input. apply IZR_le.
    assert (Hpct : (Part003.Math_round (Part003.curved x * 100)
                    <= Part003.Math_round (Part003.curved y * 100))%Z).
    { apply Math_round_mono.
      apply Rmult_le_compat_r; [Lra.lra | apply curved_mono, Hxy]. }
    lia.
  - rewrite !meter_without_input. Lra.lra.
Qed.

Lemma gamma_floor_before_rounding : Part003.curved 3 * 100 = 0.
Proof. rewrite curved_floor. Lra.lra. Qed.

Lemma gamma_floor_returned :
  Part003.meterPercentFromGuessesLog10 3 true = 1.
Proof.
  rewrite meter_with_input, gamma_floor_before_rounding.
  rewrite (Math_round_integer 0). reflexivity.
Qed.

Lemma gamma_ceiling : Part003.meterPercentFromGuessesLog10 24 true = 100.
Proof.
  rewrite meter_with_input, curved_ceiling.
  replace (1 * 100) with (IZR 100) by Lra.lra.
  rewrite (Math_round_integer 100). reflexivity.
Qed.

End MeterGamma.

(** ** The meter, both versions *)

Section Meter.

(** C2. With [hasInput] true the meter never decreases when
    [guessesLog10] increases; the window floor gives 0 before rounding
    and the window ceiling gives 100.  Stated for the power curve over
    the window from 3 to 24, where the meter is the curved value times 100
    rounded and clamped into the range from 1 to 100, so that the 0 at the
    floor is shown as 1; and for the ease-out curve of [App.tsx] over the
    window from 2 to 18, which has no [hasInput] and no rounding. *)
Theorem meterPercent_monotone_floor_ceiling (x y : R) (a b : Q)
    (Hxy : (x <= y)%R) (Hab : a <= b) :
  (Part003.meterPercentFromGuessesLog10 x true
     <= Part003.meterPercentFromGuessesLog10 y true)%R
  /\ (forall g : R,
        Part003.meterPercentFromGuessesLog10 g true
        = Part003.clamp
            (IZR (Part003.Math_round (Part003.curved g * 100)%R)) 1 100)
  /\ (Part003.curved 3 * 100 = 0)%R
  /\ Part003.meterPercentFromGuessesLog10 3 true = 1%R
  /\ Part003.meterPercentFromGuessesLog10 24 true = 100%R
  /\ App.meterPercentFromGuessesLog10 a <= App.meterPercentFromGuessesLog10 b
  /\ App.meterPercentFromGuessesLog10 2 == 0
  /\ App.meterPercentFromGuessesLog10 18 == 100.
Proof.
  split; [apply gamma_mono, Hxy |].
  split; [intros g; reflexivity |].
  split; [apply gamma_floor_before_rounding |].
  split; [apply gamma_floor_returned |].
  split; [apply gamma_ceiling |].
  split; [apply ease_out_mono, Hab |].
  split; [apply ease_out_floor | apply ease_out_ceiling].
Qed.

Lemma meterPercent_monotone_floor_ceiling_witness :
  (Part003.meterPercentFromGuessesLog10 5 true
     <= Part003.meterPercentFromGuessesLog10 10 true)%R
  /\ App.meterPercentFromGuessesLog10 5 <= App.meterPercentFromGuessesLog10 10.
Proof.
  assert (HR : (5 <= 10)%R) by Lra.lra.
  assert (HQ : 5 <= 10) by Lqa.lra.
  destruct (meterPercent_monotone_floor_ceiling 5 10 5 10 HR HQ)
    as (Hgamma & _ & _ & _ & _ & Hease & _).
  split; [exact Hgamma | exact Hease].
Defined.

(** C3, as the code has it.  The meter always returns a number from 0 to
    100.  The version with [hasInput] returns an integer: 0 without input,
    and with input the curved value times 100 rounded to the nearest
    integer and clamped into the range from 1 to 100.  The version of
    [App.tsx] returns the eased value times 100 as it is, without
    rounding. *)
Theorem meterPercent_range (g : Q) (r : R) (hasInput : bool) :
  (0 <= App.meterPercentFromGuessesLog10 g
   /\ App.meterPercentFromGuessesLog10 g <= 100)
  /\ exists z : Z,
       Part003.meterPercentFromGuessesLog10 r hasInput = IZR z
       /\ (0 <= z <= 100)%Z
       /\ z = if hasInput
              then Z.min
                     (Z.max (Part003.Math_round (Part003.curved r * 100)%R) 1)
                     100
              else 0%Z.
Proof.
  split; [apply ease_out_range |].
  destruct hasInput.
  - eexists. split; [apply meter_with_input |].
    split; [| reflexivity].
    pose proof (pct_range r). lia.
  - exists 0%Z. split; [apply meter_without_input |].
    split; [lia | reflexivity].
Qed.

(** C3 as stated fails.  At [guessesLog10 = 3] the meter of [App.tsx]
    returns 775/64, which is no integer; and the meter with [hasInput]
    returns 1 where rounding and then clamping into the range from 0 to
    100 gives 0. *)
Lemma meterPercent_not_rounded_then_clamped :
  (~ exists z : Z, App.meterPercentFromGuessesLog10 3 == inject_Z z)
  /\ Part003.meterPercentFromGuessesLog10 3 true = 1%R
  /\ Part003.clamp
       (IZR (Part003.Math_round (Part003.curved 3 * 100)%R)) 0 100 = 0%R
  /\ Part003.meterPercentFromGuessesLog10 3 true
     <> Part003.clamp
          (IZR (Part003.Math_round (Part003.curved 3 * 100)%R)) 0 100.
Proof.
  assert (Hclaimed :
    Part003.clamp
      (IZR (Part003.Math_round (Part003.curved 3 * 100)%R)) 0 100 = 0%R).
  { rewrite gamma_floor_before_rounding, (Math_round_integer 0).
    apply clamp_inside. Lra.lra. }
  split; [apply ease_out_at_3_fractional |].
  split; [apply gamma_floor_returned |].
  split; [exact Hclaimed |].
  rewrite gamma_floor_returned, Hclaimed. Lra.lra.
Qed.

End Meter.

(** ** The estimate of the empty password, and the suggestion *)

Section Suggestion.

Lemma length_nonempty (p : JS.str) : p <> [] -> (JS.length p =? 0)%Z = false.
Proof.
  intros Hp. destruct p as [| c p]; [congruence |].
  apply Z.eqb_neq. unfold JS.length. simpl List.length. lia.
Qed.

Lemma or_chain_truthiness (warning : string) (suggestions : list string)
    (fallback : string) :
  JS.or_default (JS.or_undef warning (JS.index suggestions 0)) fallback
  = Spec.suggestion_by_truthiness warning suggestions fallback.
Proof.
  unfold JS.or_default, JS.or_undef, Spec.suggestion_by_truthiness, JS.index.
  simpl. destruct (String.eqb warning EmptyString) eqn:Hw.
  - destruct suggestions as [| first rest]; reflexivity.
  - rewrite Hw. reflexivity.
Qed.

Lemma entropy_zero_iff (x : Q) :
  JS.Math_max 0 (JS.Math_round x) = 0%Z <-> x < 1 # 2.
Proof.
  unfold JS.Math_max, JS.Math_round. split.
  - intros Hmax.
    assert (Hfloor : (Qfloor (x + (1 # 2)) + 1 <= 1)%Z) by lia.
    rewrite Zle_Qle in Hfloor.
    pose proof (Qlt_floor (x + (1 # 2))) as Hlt.
    change (inject_Z 1) with 1 in Hfloor. Lqa.lra.
  - intros Hx.
    assert (Hfloor : (Qfloor (x + (1 # 2)) <= 0)%Z)
      by (apply Qfloor_below_one; Lqa.lra).
    lia.
Qed.

Lemma ease_out_zero_below_window (g : Q) :
  g <= 2 -> App.meterPercentFromGuessesLog10 g == 0.
Proof.
  intros Hg. rewrite meter_as_polynomial.
  assert (Hpos : (g - 2) / (18 - 2) <= 0).
  { assert (Hdiv : (g - 2) / (18 - 2) == (g - 2) * (1 # 16)) by field.
    rewrite Hdiv. Lqa.lra. }
  assert (Ht : App.clamp ((g - 2) / (18 - 2)) 0 1 == 0).
  { unfold App.clamp. rewrite (Q.max_r _ _ Hpos). apply Q.min_l. Lqa.lra. }
  rewrite Ht. reflexivity.
Qed.

(** C1. For the empty password, [zxcvbn] reports one guess, that is a
    [guesses_log10] of 0.  With that answer the estimate of the empty
    password has [entropy] 0, [meterPercent] 0, [variety] 0 and the fixed
    prompt as [suggestion], not a text of the oracle.  The same holds in
    the version with the early return, which does not consult the oracle,
    and in the version whose meter takes [hasInput]. *)
Theorem empty_password_estimate (zxcvbn : Zxcvbn.Oracle)
    (Hempty : Zxcvbn.guesses_log10 (zxcvbn []) == 0) :
  App.Estimate.entropy (App.scorePassword zxcvbn []) = 0%Z
  /\ App.Estimate.meterPercent (App.scorePassword zxcvbn []) == 0
  /\ App.Estimate.variety (App.scorePassword zxcvbn []) = 0%Z
  /\ App.Estimate.suggestion (App.scorePassword zxcvbn []) = Spec.prompt
  /\ Part001.Estimate.entropy (Part001.scorePassword zxcvbn []) = 0%Z
  /\ Part001.Estimate.variety (Part001.scorePassword zxcvbn []) = 0%Z
  /\ Part001.Estimate.suggestion (Part001.scorePassword zxcvbn [])
     = Spec.prompt
  /\ Part003.Estimate.entropy (Part003.scorePassword zxcvbn []) = 0%Z
  /\ Part003.Estimate.meterPercent (Part003.scorePassword zxcvbn []) = 0%R
  /\ Part003.Estimate.variety (Part003.scorePassword zxcvbn []) = 0%Z
  /\ Part003.Estimate.suggestion (Part003.scorePassword zxcvbn [])
     = Spec.prompt.
Proof.
  assert (Hentropy :
    JS.Math_max 0
      (JS.Math_round (Zxcvbn.guesses_log10 (zxcvbn []) * App.LOG2_10)) = 0%Z).
  { apply entropy_zero_iff. rewrite Hempty. reflexivity. }
  split; [exact Hentropy |].
  split; [apply ease_out_zero_below_window; rewrite Hempty; Lqa.lra |].
  split; [reflexivity |]. split; [reflexivity |].
  split; [reflexivity |]. split; [reflexivity |]. split; [reflexivity |].
  split; [exact Hentropy |].
  repeat split.
Qed.

Lemma empty_password_estimate_witness :
  App.Estimate.entropy
    (App.scorePassword (Sample.oracle 0 EmptyString []) []) = 0%Z
  /\ App.Estimate.meterPercent
       (App.scorePassword (Sample.oracle 0 EmptyString []) []) == 0.
Proof.
  assert (Hempty :
    Zxcvbn.guesses_log10 (Sample.oracle 0 EmptyString [] []) == 0)
    by reflexivity.
  destruct (empty_password_estimate (Sample.oracle 0 EmptyString []) Hempty)
    as (Hentropy & Hmeter & _).
  split; [exact Hentropy | exact Hmeter].
Defined.

(** C5, as the code has it.  For a non-empty password the suggestion is
    the oracle's warning if it is not empty, else the first suggestion if
    there is one and it is not empty, else the fixed fallback: "Nice job!
    This looks strong." in [App.tsx], another sentence in the first oracle
    version.  For the empty password it is the fixed prompt. *)
Theorem suggestion_priority (zxcvbn : Zxcvbn.Oracle) (p : JS.str) :
  (p <> [] ->
   App.Estimate.suggestion (App.scorePassword zxcvbn p)
   = Spec.suggestion_by_truthiness
       (Zxcvbn.warning (Zxcvbn.feedback (zxcvbn p)))
       (Zxcvbn.suggestions (Zxcvbn.feedback (zxcvbn p)))
       "Nice job! This looks strong."
   /\ Part001.Estimate.suggestion (Part001.scorePassword zxcvbn p)
      = Spec.suggestion_by_truthiness
          (Zxcvbn.warning (Zxcvbn.feedback (zxcvbn p)))
          (Zxcvbn.suggestions (Zxcvbn.feedback (zxcvbn p)))
          "Passphrases with a mix of words and symbols are powerful.")
  /\ (p = [] ->
      App.Estimate.suggestion (App.scorePassword zxcvbn p) = Spec.prompt
      /\ Part001.Estimate.suggestion (Part001.scorePassword zxcvbn p)
         = Spec.prompt).
Proof.
  split.
  - intros Hp. pose proof (length_nonempty p Hp) as Hlen.
    unfold Part001.scorePassword, App.scorePassword. rewrite Hlen.
    cbn [App.Estimate.suggestion Part001.Estimate.suggestion].
    rewrite !or_chain_truthiness. split; reflexivity.
  - intros ->. split; reflexivity.
Qed.

Lemma suggestion_priority_witness :
  App.Estimate.suggestion
    (App.scorePassword
       (Sample.oracle 6 "This is a top-10 common password"
          ["Add another word or two"%string])
       (JS.lit "abc"))
  = "This is a top-10 common password"%string
  /\ App.Estimate.suggestion
       (App.scorePassword
          (Sample.oracle 6 "This is a top-10 common password"
             ["Add another word or two"%string]) [])
     = Spec.prompt.
Proof.
  destruct (suggestion_priority
              (Sample.oracle 6 "This is a top-10 common password"
                 ["Add another word or two"%string]) (JS.lit "abc"))
    as (Hnonempty & _).
  destruct (suggestion_priority
              (Sample.oracle 6 "This is a top-10 common password"
                 ["Add another word or two"%string]) [])
    as (_ & Hempty).
  split.
  - destruct Hnonempty as [Happ _]; [discriminate |].
    rewrite Happ. reflexivity.
  - destruct Hempty as [Happ _]; [reflexivity |]. exact Happ.
Defined.

(** C5 as stated fails in two places.  When the warning is empty and the
    first suggestion is present but empty, [App.tsx] gives the fallback
    and not that first entry; and when the oracle gives no feedback at
    all, the first oracle version answers with a fallback that is not
    "Nice job! This looks strong.". *)
Lemma suggestion_priority_differs :
  App.Estimate.suggestion
    (App.scorePassword (Sample.oracle 6 EmptyString [EmptyString])
       (JS.lit "a"))
  = "Nice job! This looks strong."%string
  /\ Spec.suggestion_by_priority EmptyString [EmptyString]
       "Nice job! This looks strong." = EmptyString
  /\ Part001.Estimate.suggestion
       (Part001.scorePassword (Sample.oracle 6 EmptyString []) (JS.lit "a"))
     = "Passphrases with a mix of words and symbols are powerful."%string
  /\ Spec.suggestion_by_priority EmptyString []
       "Nice job! This looks strong."
     = "Nice job! This looks strong."%string
  /\ App.Estimate.suggestion
       (App.scorePassword (Sample.oracle 6 EmptyString [EmptyString])
          (JS.lit "a"))
     <> Spec.suggestion_by_priority EmptyString [EmptyString]
          "Nice job! This looks strong."
  /\ Part001.Estimate.suggestion
       (Part001.scorePassword (Sample.oracle 6 EmptyString []) (JS.lit "a"))
     <> Spec.suggestion_by_priority EmptyString []
          "Nice job! This looks strong.".
Proof. repeat split; discriminate. Qed.

End Suggestion.

(** ** The duration formatter *)

Section Duration.

(** X23. A number of seconds that is not finite (an infinity, NaN) or not
    positive is formatted as "almost instantly", never as a number, in both
    versions that have the formatter (in the first oracle version, when no
    display text is passed). *)
Lemma formatDuration_instant (seconds : JS.Number) :
  JS.isFinite seconds = false \/ JS.le_zero seconds = true ->
  Part002.formatDuration seconds = "almost instantly"%string
  /\ Part001.formatDuration seconds None = "almost instantly"%string.
Proof.
  intros Hguard.
  assert (Htest : negb (JS.isFinite seconds) || JS.le_zero seconds = true).
  { destruct Hguard as [-> | ->]; [reflexivity | apply orb_true_r]. }
  unfold Part002.formatDuration, Part001.formatDuration.
  cbn [JS.truthy]. rewrite Htest. split; reflexivity.
Qed.

Example formatDuration_zero :
  Part002.formatDuration (JS.Finite 0) = "almost instantly"%string.
Proof. reflexivity. Qed.

Example formatDuration_negative :
  Part002.formatDuration (JS.Finite (-5)) = "almost instantly"%string.
Proof. reflexivity. Qed.

Example formatDuration_infinity :
  Part002.formatDuration JS.PosInfinity = "almost instantly"%string.
Proof. reflexivity. Qed.

Example formatDuration_nan :
  Part002.formatDuration JS.NaN = "almost instantly"%string.
Proof. reflexivity. Qed.

Example formatDuration_one_second :
  Part002.formatDuration (JS.Finite 1) = "1 second"%string.
Proof. vm_compute. reflexivity. Qed.

Example formatDuration_two_minutes :
  Part002.formatDuration (JS.Finite 120) = "2 minutes"%string.
Proof. vm_compute. reflexivity. Qed.

Example formatDuration_one_decimal :
  Part002.formatDuration (JS.Finite 90) = "1.5 minutes"%string.
Proof. vm_compute. reflexivity. Qed.

Example formatDuration_ninety_nine_years :
  Part002.formatDuration (JS.Finite 3122064000) = "99 years"%string.
Proof. vm_compute. reflexivity. Qed.

Example formatDuration_friendly :
  Part001.formatDuration (JS.Finite 120) (Some "centuries"%string)
  = "centuries"%string.
Proof. reflexivity. Qed.

Lemma years_below_century (q : Q) :
  q < 3153600000 -> Qle_bool 100 (q / 60 / 60 / 24 / 365) = false.
Proof.
  intros Hq. destruct (Qle_bool 100 _) eqn:Hle; [| reflexivity].
  apply Qle_bool_iff in Hle.
  assert (Hyears : q / 60 / 60 / 24 / 365 == q * (1 # 31536000)) by field.
  rewrite Hyears in Hle. Lqa.lra.
Qed.

Lemma years_from_century (q : Q) :
  3153600000 <= q ->
  Qle_bool 60 q = true /\ Qle_bool 60 (q / 60) = true
  /\ Qle_bool 24 (q / 60 / 60) = true
  /\ Qle_bool 365 (q / 60 / 60 / 24) = true
  /\ Qle_bool 100 (q / 60 / 60 / 24 / 365) = true.
Proof.
  intros Hq.
  assert (H1 : q / 60 == q * (1 # 60)) by field.
  assert (H2 : q / 60 / 60 == q * (1 # 3600)) by field.
  assert (H3 : q / 60 / 60 / 24 == q * (1 # 86400)) by field.
  assert (H4 : q / 60 / 60 / 24 / 365 == q * (1 # 31536000)) by field.
  repeat split; apply Qle_bool_iff.
  - Lqa.lra.
  - rewrite H1. Lqa.lra.
  - rewrite H2. Lqa.lra.
  - rewrite H3. Lqa.lra.
  - rewrite H4. Lqa.lra.
Qed.

(** Below a hundred years the loop of the source walks the ladder of the
    specification. *)
Lemma ladder_below_century (q : Q) :
  q < 3153600000 ->
  Part002.ladder Part002.units q "second"
  = Spec.divide_along Spec.unit_ladder q "second".
Proof.
  intros Hq. pose proof (years_below_century q Hq) as Hyears.
  cbn [Part002.ladder Part002.units Spec.divide_along Spec.unit_ladder].
  unfold Part002.lt.
  destruct (Qle_bool 60 q); cbn [negb]; [| reflexivity].
  destruct (Qle_bool 60 (q / 60)); cbn [negb]; [| reflexivity].
  destruct (Qle_bool 24 (q / 60 / 60)); cbn [negb]; [| reflexivity].
  destruct (Qle_bool 365 (q / 60 / 60 / 24)); cbn [negb]; [| reflexivity].
  rewrite Hyears. reflexivity.
Qed.

(** From a hundred years on the loop divides once more, by 100, and
    keeps the unit "year". *)
Lemma ladder_from_century (q : Q) :
  3153600000 <= q ->
  Part002.ladder Part002.units q "second"
  = (q / 60 / 60 / 24 / 365 / 100, "year"%string)
  /\ Spec.divide_along Spec.unit_ladder q "second"
     = (q / 60 / 60 / 24 / 365, "year"%string).
Proof.
  intros Hq.
  destruct (years_from_century q Hq) as (H1 & H2 & H3 & H4 & H5).
  cbn [Part002.ladder Part002.units Spec.divide_along Spec.unit_ladder].
  unfold Part002.lt. rewrite H1, H2, H3, H4, H5. split; reflexivity.
Qed.

(** In exact arithmetic, the formatter of the source is the one the
    specification describes on every positive duration below a hundred
    years. *)
Lemma formatDuration_below_century (q : Q) :
  0 < q -> q < 3153600000 ->
  Part002.formatDuration (JS.Finite q) = Spec.formatDuration q
  /\ Part001.formatDuration (JS.Finite q) None = Spec.formatDuration q.
Proof.
  intros Hpos Hq.
  assert (Hguard : Qle_bool q 0 = false).
  { destruct (Qle_bool q 0) eqn:Hle; [| reflexivity].
    apply Qle_bool_iff in Hle. Lqa.lra. }
  assert (Hsame : Part001.ladder Part001.units q "second"
                  = Part002.ladder Part002.units q "second") by reflexivity.
  unfold Part002.formatDuration, Part001.formatDuration, Spec.formatDuration.
  cbn [JS.truthy JS.isFinite JS.le_zero negb orb
       Part002.finite_value Part001.finite_value].
  rewrite Hguard, Hsame, (ladder_below_century q Hq).
  destruct (Spec.divide_along Spec.unit_ladder q "second") as [value unit].
  unfold Spec.round_for_display, Part002.lt, Part001.lt, JS.Math_round.
  destruct (Qle_bool 10 value); split; reflexivity.
Qed.

(** C6, where the code departs from it.  200 years, 6307200000 seconds,
    are printed as "2 years" by the formatter of the source, in both
    versions that have one; the ladder 60, 60, 24, 365 of the
    specification gives "200 years". *)
Theorem formatDuration_divides_centuries :
  Part002.formatDuration (JS.Finite 6307200000) = "2 years"%string
  /\ Part001.formatDuration (JS.Finite 6307200000) None = "2 years"%string
  /\ Spec.formatDuration 6307200000 = "200 years"%string.
Proof. repeat split; vm_compute; reflexivity. Qed.

End Duration.


(** ** More on the meter of [App.tsx] *)

Section MeterShape.

Lemma window_cases (g : Q) :
  (g <= 2 /\ App.clamp ((g - 2) / (18 - 2)) 0 1 == 0)
  \/ (2 <= g /\ g <= 18
      /\ App.clamp ((g - 2) / (18 - 2)) 0 1 == (g - 2) * (1 # 16))
  \/ (18 <= g /\ App.clamp ((g - 2) / (18 - 2)) 0 1 == 1).
Proof.
  assert (Hd : (g - 2) / (18 - 2) == (g - 2) * (1 # 16)) by field.
  unfold App.clamp.
  destruct (Q.max_spec ((g - 2) / (18 - 2)) 0) as [[Hlt Hmax] | [Hle Hmax]];
    destruct (Q.min_spec (Qmax ((g - 2) / (18 - 2)) 0) 1)
      as [[Hlt' Hmin] | [Hle' Hmin]];
    rewrite Hmin; rewrite Hmax in *; rewrite Hd in *.
  - left. split; [Lqa.lra | reflexivity].
  - exfalso. Lqa.lra.
  - right. left. repeat split; try Lqa.lra.
  - right. right. split; [Lqa.lra | reflexivity].
Qed.

(** X1. [clamp] keeps a number that lies between the bounds and brings any
    other number to the nearer bound, so that with [min <= max] the result
    always lies between them. *)
Theorem clamp_between_bounds (n lo hi : Q) (Hbounds : lo <= hi) :
  lo <= App.clamp n lo hi
  /\ App.clamp n lo hi <= hi
  /\ (lo <= n -> n <= hi -> App.clamp n lo hi == n)
  /\ (n <= lo -> App.clamp n lo hi == lo)
  /\ (hi <= n -> App.clamp n lo hi == hi).
Proof.
  unfold App.clamp. repeat split.
  - apply Q.min_glb; [apply Q.le_max_r | exact Hbounds].
  - apply Q.le_min_r.
  - intros Hlo Hhi. rewrite (Q.max_l _ _ Hlo). apply Q.min_l, Hhi.
  - intros Hn. rewrite (Q.max_r _ _ Hn). apply Q.min_l, Hbounds.
  - intros Hn. apply Q.min_r.
    apply Qle_trans with n; [exact Hn | apply Q.le_max_l].
Qed.

Lemma clamp_between_bounds_witness :
  App.clamp 7 0 1 == 1 /\ App.clamp (1 # 3) 0 1 == 1 # 3.
Proof.
  assert (Hbounds : 0 <= 1) by Lqa.lra.
  destruct (clamp_between_bounds 7 0 1 Hbounds) as (_ & _ & _ & _ & Habove).
  destruct (clamp_between_bounds (1 # 3) 0 1 Hbounds) as (_ & _ & Hin & _).
  split; [apply Habove | apply Hin]; Lqa.lra.
Defined.

(** X2. The meter of [App.tsx] stays empty up to the window floor and
    stays full from the window ceiling on: it is 0 for every
    [guessesLog10] of at most 2 and 100 for every one of at least 18. *)
Theorem ease_out_saturates (g : Q) :
  (g <= 2 -> App.meterPercentFromGuessesLog10 g == 0)
  /\ (18 <= g -> App.meterPercentFromGuessesLog10 g == 100).
Proof.
  rewrite meter_as_polynomial.
  destruct (window_cases g) as [[Hg Ht] | [(Hlo & Hhi & Ht) | [Hg Ht]]];
    rewrite Ht; split; intros H; try Lqa.lra; Lqa.nra.
Qed.

Lemma ease_out_saturates_witness :
  App.meterPercentFromGuessesLog10 (-1) == 0
  /\ App.meterPercentFromGuessesLog10 40 == 100.
Proof.
  destruct (ease_out_saturates (-1)) as (Hlow & _).
  destruct (ease_out_saturates 40) as (_ & Hhigh).
  split; [apply Hlow | apply Hhigh]; Lqa.lra.
Defined.

End MeterShape.

(** ** More on tiers, variety and entropy in [App.tsx] *)

Section EstimateShape.

(** X5. Looking a tier up by its own score gives that tier back: for every
    score from 0 to 4, [strengthFromScore] returns the entry at that
    position of [LEVELS], and that entry carries the score. *)
Theorem strengthFromScore_lookup (s : Z) (Hrange : (0 <= s <= 4)%Z) :
  exists level,
    App.strengthFromScore s = Some level
    /\ App.Level.score level = s
    /\ nth_error App.LEVELS (Z.to_nat s) = Some level.
Proof.
  assert (Hcases : s = 0%Z \/ s = 1%Z \/ s = 2%Z \/ s = 3%Z \/ s = 4%Z) by lia.
  destruct Hcases as [-> | [-> | [-> | [-> | ->]]]];
    eexists; repeat split.
Qed.

Lemma strengthFromScore_lookup_witness :
  exists level,
    App.strengthFromScore 2 = Some level
    /\ App.Level.score level = 2%Z
    /\ nth_error App.LEVELS (Z.to_nat 2) = Some level.
Proof.
  apply strengthFromScore_lookup. lia.
Defined.

Lemma some_class_matches (c : N) :
  Spec.is_lowercase c || Spec.is_uppercase c || Spec.is_digit c
  || Spec.is_other c = true.
Proof.
  unfold Spec.is_other.
  destruct (Spec.is_lowercase c || Spec.is_uppercase c || Spec.is_digit c);
    reflexivity.
Qed.

Lemma class_count_positive (p : JS.str) : p <> [] -> (1 <= class_count p)%Z.
Proof.
  intros Hp. destruct p as [| c p]; [congruence |].
  rewrite class_count_spec.
  unfold Spec.variety, Spec.has_lowercase, Spec.has_uppercase,
    Spec.has_digit, Spec.has_other.
  cbn [existsb]. pose proof (some_class_matches c) as Hc.
  destruct (Spec.is_lowercase c), (Spec.is_uppercase c), (Spec.is_digit c),
    (Spec.is_other c); try discriminate Hc; cbn [orb];
    repeat match goal with
           | |- context [existsb ?f p] => destruct (existsb f p)
           end; simpl; lia.
Qed.

(** X6. The variety that [scorePassword] reports is 0 for the empty
    password and for no other: every code unit falls in one of the four
    classes. *)
Theorem variety_zero_iff_empty (zxcvbn : Zxcvbn.Oracle) (p : JS.str) :
  App.Estimate.variety (App.scorePassword zxcvbn p) = 0%Z <-> p = [].
Proof.
  change (App.Estimate.variety (App.scorePassword zxcvbn p))
    with (class_count p).
  split.
  - intros Hzero. destruct p as [| c p]; [reflexivity |].
    assert (Hpos : (1 <= class_count (c :: p))%Z)
      by (apply class_count_positive; discriminate).
    lia.
  - intros ->. reflexivity.
Qed.

(** X7. The variety line of the page: [varietyLabel] applied to the variety
    of an estimate reads "no variety yet" for the empty password only, and
    is one of the four labels of the table for every other password. *)
Theorem varietyLabel_of_estimate (zxcvbn : Zxcvbn.Oracle) (p : JS.str) :
  (App.varietyLabel (App.Estimate.variety (App.scorePassword zxcvbn p))
   = "no variety yet"%string <-> p = [])
  /\ (p <> [] ->
      In (App.varietyLabel (App.Estimate.variety (App.scorePassword zxcvbn p)))
        variety_labels).
Proof.
  change (App.Estimate.variety (App.scorePassword zxcvbn p))
    with (class_count p).
  assert (Hcases : p = [] \/
            (p <> [] /\ (class_count p = 1 \/ class_count p = 2
                         \/ class_count p = 3 \/ class_count p = 4)%Z)).
  { destruct p as [| c p]; [left; reflexivity | right].
    split; [discriminate |].
    assert (Hpos : (1 <= class_count (c :: p))%Z)
      by (apply class_count_positive; discriminate).
    pose proof (spec_variety_range (c :: p)) as Hrange.
    rewrite <- class_count_spec in Hrange. lia. }
  destruct Hcases as [-> | [Hp Hv]].
  - split; [split; reflexivity | congruence].
  - split.
    + split; [| congruence].
      destruct Hv as [-> | [-> | [-> | ->]]]; discriminate.
    + intros _.
      destruct Hv as [-> | [-> | [-> | ->]]]; simpl; tauto.
Qed.

Lemma varietyLabel_of_estimate_witness :
  In (App.varietyLabel
        (App.Estimate.variety
           (App.scorePassword (Sample.oracle 6 EmptyString [])
              (JS.lit "C@ts4Life"))))
    variety_labels.
Proof.
  destruct (varietyLabel_of_estimate (Sample.oracle 6 EmptyString [])
              (JS.lit "C@ts4Life")) as (_ & Hin).
  apply Hin. discriminate.
Defined.

Lemma LOG2_10_positive : 0 < App.LOG2_10.
Proof. reflexivity. Qed.

(** X8. More guesses never mean fewer bits: when the oracle's
    [guesses_log10] is larger, the [entropy] that [scorePassword] reports is
    at least as large. *)
Theorem entropy_monotone (zxcvbn1 zxcvbn2 : Zxcvbn.Oracle) (p1 p2 : JS.str)
    (Hguesses : Zxcvbn.guesses_log10 (zxcvbn1 p1)
                <= Zxcvbn.guesses_log10 (zxcvbn2 p2)) :
  (App.Estimate.entropy (App.scorePassword zxcvbn1 p1)
   <= App.Estimate.entropy (App.scorePassword zxcvbn2 p2))%Z.
Proof.
  cbn [App.scorePassword App.Estimate.entropy].
  unfold JS.Math_max, JS.Math_round.
  apply Z.max_le_compat_l, Qfloor_resp_le.
  pose proof LOG2_10_positive as Hpos.
  assert (Hmul : Zxcvbn.guesses_log10 (zxcvbn1 p1) * App.LOG2_10
                 <= Zxcvbn.guesses_log10 (zxcvbn2 p2) * App.LOG2_10).
  { apply Qmult_le_compat_r; [exact Hguesses | apply Qlt_le_weak, Hpos]. }
  Lqa.lra.
Qed.

Lemma entropy_monotone_witness :
  (App.Estimate.entropy
     (App.scorePassword (Sample.oracle 6 EmptyString []) (JS.lit "abc"))
   <= App.Estimate.entropy
        (App.scorePassword (Sample.oracle 11 EmptyString []) (JS.lit "abc")))%Z.
Proof.
  apply entropy_monotone. simpl. Lqa.lra.
Defined.

Lemma or_default_nonempty (x : option string) (d : string) :
  d <> EmptyString -> JS.or_default x d <> EmptyString.
Proof.
  intros Hd. unfold JS.or_default.
  destruct x as [s0 |]; [| exact Hd].
  destruct (String.eqb s0 EmptyString) eqn:Heq; [exact Hd |].
  apply String.eqb_neq, Heq.
Qed.

(** X10. The suggestion line is never blank: for every password and every
    answer of the oracle, [scorePassword] returns a non-empty [suggestion],
    in [App.tsx], in the first oracle version and in the version whose
    meter takes [hasInput]. *)
Theorem suggestion_never_empty (zxcvbn : Zxcvbn.Oracle) (p : JS.str) :
  App.Estimate.suggestion (App.scorePassword zxcvbn p) <> EmptyString
  /\ Part001.Estimate.suggestion (Part001.scorePassword zxcvbn p)
     <> EmptyString
  /\ Part003.Estimate.suggestion (Part003.scorePassword zxcvbn p)
     <> EmptyString.
Proof.
  unfold App.scorePassword, Part001.scorePassword, Part003.scorePassword.
  destruct (JS.length p =? 0)%Z;
    cbn [App.Estimate.suggestion Part001.Estimate.suggestion
         Part003.Estimate.suggestion];
    repeat split; try discriminate; apply or_default_nonempty; discriminate.
Qed.

End EstimateShape.

(** ** More on the meter that takes [hasInput] *)

Section MeterGammaShape.

Local Open Scope R_scope.

Lemma curved_below_window (g : R) : g <= 3 -> Part003.curved g = 0.
Proof.
  intros Hg. unfold Part003.curved.
  rewrite clamp_below; [apply Math_pow_0 | | Lra.lra].
  unfold Rdiv. replace 0 with (0 * / (24 - 3)) by Lra.lra.
  apply Rmult_le_compat_r; [| Lra.lra].
  left. apply Rinv_0_lt_compat. Lra.lra.
Qed.

Lemma curved_above_window (g : R) : 24 <= g -> Part003.curved g = 1.
Proof.
  intros Hg. unfold Part003.curved.
  rewrite clamp_above; [apply Math_pow_1 | | Lra.lra].
  replace 1 with ((24 - 3) / (24 - 3)) at 1 by (field; Lra.lra).
  apply window_position_mono_gamma, Hg.
Qed.

(** X11. With input, the meter that takes [hasInput] never shows less than
    1 nor more than 100; it shows exactly 1 for every [guessesLog10] up to
    3 and exactly 100 from 24 on. *)
Theorem gamma_saturation (g : R) :
  1 <= Part003.meterPercentFromGuessesLog10 g true <= 100
  /\ (g <= 3 -> Part003.meterPercentFromGuessesLog10 g true = 1)
  /\ (24 <= g -> Part003.meterPercentFromGuessesLog10 g true = 100).
Proof.
  split; [| split].
  - unfold Part003.meterPercentFromGuessesLog10. simpl negb. cbv iota.
    apply clamp_range. Lra.lra.
  - intros Hg. rewrite meter_with_input, (curved_below_window g Hg).
    replace (0 * 100) with (IZR 0) by Lra.lra.
    rewrite Math_round_integer. reflexivity.
  - intros Hg. rewrite meter_with_input, (curved_above_window g Hg).
    replace (1 * 100) with (IZR 100) by Lra.lra.
    rewrite Math_round_integer. reflexivity.
Qed.

Lemma gamma_saturation_witness :
  Part003.meterPercentFromGuessesLog10 1 true = 1
  /\ Part003.meterPercentFromGuessesLog10 30 true = 100.
Proof.
  destruct (gamma_saturation 1) as (_ & Hlow & _).
  destruct (gamma_saturation 30) as (_ & _ & Hhigh).
  split; [apply Hlow | apply Hhigh]; Lra.lra.
Defined.

(** X12. In the version whose meter takes [hasInput], the estimate's
    [meterPercent] is 0 for the empty password and for no other, whatever
    the oracle answers. *)
Theorem meterPercent_zero_iff_empty (zxcvbn : Zxcvbn.Oracle) (p : JS.str) :
  Part003.Estimate.meterPercent (Part003.scorePassword zxcvbn p) = 0
  <-> p = [].
Proof.
  split.
  - intros Hzero. destruct p as [| c p]; [reflexivity | exfalso].
    cbn [Part003.scorePassword Part003.Estimate.meterPercent] in Hzero.
    assert (Hinput : (0 <? JS.length (c :: p))%Z = true).
    { apply Z.ltb_lt. unfold JS.length. simpl List.length. lia. }
    rewrite Hinput in Hzero.
    destruct (gamma_saturation
                (Q2R (Zxcvbn.guesses_log10 (zxcvbn (c :: p)))))
      as ((Hlow & _) & _).
    Lra.lra.
  - intros ->. reflexivity.
Qed.

End MeterGammaShape.

(** ** The tiers by entropy, and the fill of the meter, in the two earlier
    versions *)

Section EntropyTiers.

(** X13. In the first oracle version the tier is the one with the greatest
    threshold that the entropy reaches: "Very weak" below 28 bits (negative
    numbers included), "Weak" from 28, "Okay" from 36, "Strong" from 45 and
    "Excellent" from 60. *)
Theorem strengthFromEntropy_thresholds (e : Z) :
  exists level,
    Part001.strengthFromEntropy e = Some level
    /\ In level Part001.LEVELS
    /\ Part001.Level.label level
       = (if (e <? 28)%Z then "Very weak"
          else if (e <? 36)%Z then "Weak"
          else if (e <? 45)%Z then "Okay"
          else if (e <? 60)%Z then "Strong"
          else "Excellent")%string
    /\ forall other,
         In other Part001.LEVELS ->
         (Part001.Level.minEntropy other <= e)%Z ->
         (Part001.Level.minEntropy other <= Part001.Level.minEntropy level)%Z.
Proof.
  unfold Part001.strengthFromEntropy.
  cbn [fold_left Part001.LEVELS Part001.Level.minEntropy JS.index].
  cbn [Z.ltb Z.compare nth_error Z.to_nat].
  destruct (0 <=? e)%Z eqn:H0, (28 <=? e)%Z eqn:H28, (36 <=? e)%Z eqn:H36,
    (45 <=? e)%Z eqn:H45, (60 <=? e)%Z eqn:H60;
    destruct (e <? 28)%Z eqn:L28, (e <? 36)%Z eqn:L36, (e <? 45)%Z eqn:L45,
      (e <? 60)%Z eqn:L60;
    try lia;
    (eexists; split; [reflexivity |]; split; [simpl; tauto |];
     split; [reflexivity |];
     intros other Hin Hle; simpl in Hin;
     repeat (destruct Hin as [<- | Hin]; [simpl in *; lia |]);
     contradiction).
Qed.

(** X14. In the self-contained version, which has four tiers, the tier is
    "Very weak" below 30 bits, "Okay" from 30, "Strong" from 45 and
    "Excellent" from 60: there is no "Weak" tier. *)
Theorem strengthFromEntropy_four_tiers (e : Z) :
  exists level,
    Part002.strengthFromEntropy e = Some level
    /\ In level Part002.LEVELS
    /\ Part002.Level.label level
       = (if (e <? 30)%Z then "Very weak"
          else if (e <? 45)%Z then "Okay"
          else if (e <? 60)%Z then "Strong"
          else "Excellent")%string
    /\ Part002.Level.label level <> "Weak"%string.
Proof.
  unfold Part002.strengthFromEntropy.
  cbn [fold_left Part002.LEVELS Part002.Level.minEntropy JS.index].
  cbn [Z.ltb Z.compare nth_error Z.to_nat].
  destruct (0 <=? e)%Z eqn:H0, (30 <=? e)%Z eqn:H30,
    (45 <=? e)%Z eqn:H45, (60 <=? e)%Z eqn:H60;
    destruct (e <? 30)%Z eqn:L30, (e <? 45)%Z eqn:L45, (e <? 60)%Z eqn:L60;
    try lia;
    (eexists; split; [reflexivity |]; split; [simpl; tauto |];
     split; [reflexivity | discriminate]).
Qed.

Lemma entropy_nonneg_first_version (zxcvbn : Zxcvbn.Oracle) (p : JS.str) :
  (0 <= Part001.Estimate.entropy (Part001.scorePassword zxcvbn p))%Z.
Proof.
  unfold Part001.scorePassword.
  destruct (JS.length p =? 0)%Z; cbn [Part001.Estimate.entropy];
    [lia | apply Z.le_max_l].
Qed.

(** X15. In the first oracle version the fill of the meter is always
    between 20 and 100 percent wide, for every password and every answer of
    the oracle, and it is full exactly when the entropy reaches 80 bits. *)
Theorem fillWidth_range (zxcvbn : Zxcvbn.Oracle) (p : JS.str) :
  (20 <= Part001.fillWidth (Part001.scorePassword zxcvbn p) <= 100)%Z
  /\ (Part001.fillWidth (Part001.scorePassword zxcvbn p) = 100%Z
      <-> (80 <= Part001.Estimate.entropy (Part001.scorePassword zxcvbn p))%Z).
Proof.
  pose proof (entropy_nonneg_first_version zxcvbn p) as Hpos.
  unfold Part001.fillWidth. lia.
Qed.

(** X16. In the first oracle version, for a non-empty password the crack
    time shown is the oracle's own display text whenever that text is not
    empty, whatever the number of seconds; only an empty display text makes
    the version format the seconds itself. *)
Theorem crackTime_prefers_display (zxcvbn : Zxcvbn.Oracle) (p : JS.str)
    (Hnonempty : p <> []) :
  (Zxcvbn.offline_fast_hashing_1e10_per_second
     (Zxcvbn.crack_times_display (zxcvbn p)) <> EmptyString ->
   Part001.Estimate.crackTime (Part001.scorePassword zxcvbn p)
   = Zxcvbn.offline_fast_hashing_1e10_per_second
       (Zxcvbn.crack_times_display (zxcvbn p)))
  /\ (Zxcvbn.offline_fast_hashing_1e10_per_second
        (Zxcvbn.crack_times_display (zxcvbn p)) = EmptyString ->
      Part001.Estimate.crackTime (Part001.scorePassword zxcvbn p)
      = Part001.formatDuration
          (Zxcvbn.offline_fast_hashing_1e10_per_second
             (Zxcvbn.crack_times_seconds (zxcvbn p))) None).
Proof.
  unfold Part001.scorePassword. rewrite (length_nonempty p Hnonempty).
  cbn [Part001.Estimate.crackTime]. unfold Part001.formatDuration.
  cbn [JS.truthy JS.nullish]. split.
  - intros Hshown. apply String.eqb_neq in Hshown. rewrite Hshown.
    reflexivity.
  - intros ->. reflexivity.
Qed.

Lemma crackTime_prefers_display_witness :
  Part001.Estimate.crackTime
    (Part001.scorePassword (Sample.oracle 6 EmptyString []) (JS.lit "abc"))
  = "less than a second"%string.
Proof.
  destruct (crackTime_prefers_display (Sample.oracle 6 EmptyString [])
              (JS.lit "abc")) as (Hshown & _); [discriminate |].
  apply Hshown. discriminate.
Defined.

End EntropyTiers.

(** ** The self-contained version: feedback, entropy and crack time *)

Section SelfContained.

Variable Math_log2 : Z -> Q.

Lemma feedback_variety (p : JS.str) :
  Part002.Feedback.variety (Part002.passwordFeedback Math_log2 p)
  = class_count p.
Proof. reflexivity. Qed.

(** X17. [passwordFeedback] never returns an empty list of suggestions, so
    the [suggestions[0]] that [scorePassword] reads is never [undefined]:
    the estimate always carries a suggestion, and it is not the empty
    string. *)
Theorem suggestion_always_defined (p : JS.str) :
  Part002.Feedback.suggestions (Part002.passwordFeedback Math_log2 p) <> []
  /\ exists text,
       Part002.Estimate.suggestion (Part002.scorePassword Math_log2 p)
       = Some text
       /\ text <> EmptyString.
Proof.
  unfold Part002.scorePassword, Part002.passwordFeedback.
  cbn [Part002.Estimate.suggestion Part002.Feedback.suggestions].
  change (Z.of_nat (List.length
            (filter (fun regex => JS.test regex p)
               [JS.re_lower; JS.re_upper; JS.re_digit; JS.re_other])))
    with (class_count p).
  destruct (JS.length p =? 0)%Z, (JS.length p <? 12)%Z,
    (class_count p <? 3)%Z, (JS.test JS.re_space p),
    (16 <=? JS.length p)%Z;
    cbn; (split; [discriminate | eexists; split; [reflexivity | discriminate]]).
Qed.

(** X18. The praise "Nice job! This looks strong." is given exactly to the
    passwords that draw no advice: at least 12 code units long, at least
    three character classes, and either shorter than 16 or containing white
    space.  When it is given it is the only suggestion. *)
Theorem praise_iff_no_advice (p : JS.str) :
  (In "Nice job! This looks strong."%string
     (Part002.Feedback.suggestions (Part002.passwordFeedback Math_log2 p))
   <-> (12 <= JS.length p)%Z /\ (3 <= class_count p)%Z
       /\ (JS.test JS.re_space p = true \/ (JS.length p < 16)%Z))
  /\ (In "Nice job! This looks strong."%string
        (Part002.Feedback.suggestions (Part002.passwordFeedback Math_log2 p))
      -> Part002.Feedback.suggestions (Part002.passwordFeedback Math_log2 p)
         = ["Nice job! This looks strong."%string]).
Proof.
  unfold Part002.passwordFeedback. cbn [Part002.Feedback.suggestions].
  change (Z.of_nat (List.length
            (filter (fun regex => JS.test regex p)
               [JS.re_lower; JS.re_upper; JS.re_digit; JS.re_other])))
    with (class_count p).
  destruct (JS.length p <? 12)%Z eqn:Hshort,
    (class_count p <? 3)%Z eqn:Hplain,
    (JS.test JS.re_space p) eqn:Hspace,
    (16 <=? JS.length p)%Z eqn:Hlong;
    cbn;
    try apply Z.ltb_lt in Hshort; try apply Z.ltb_ge in Hshort;
    try apply Z.ltb_lt in Hplain; try apply Z.ltb_ge in Hplain;
    try apply Z.leb_le in Hlong; try apply Z.leb_gt in Hlong;
    (split; [split |]);
    try (intros Hin;
         repeat (destruct Hin as [Hin | Hin]; [discriminate Hin |]);
         contradiction);
    try (intros (H12 & H3 & [Hsp | H16]); first [lia | discriminate]);
    try (intros _; reflexivity);
    try (intros _; repeat split; first [lia | left; reflexivity | right; lia]);
    try (intros _; left; reflexivity).
Qed.

Lemma charset_cases (p : JS.str) :
  p <> [] ->
  (10 <= charset_size p <= 93)%Z
  /\ Part002.estimateEntropy Math_log2 p
     = JS.Math_round (inject_Z (JS.length p) * Math_log2 (charset_size p)).
Proof.
  intros Hp. pose proof (class_count_positive p Hp) as Hcount.
  pose proof (length_nonempty p Hp) as Hlen.
  unfold Part002.estimateEntropy, charset_size. rewrite Hlen.
  unfold class_count in Hcount. cbn [filter] in Hcount.
  destruct (JS.test JS.re_lower p), (JS.test JS.re_upper p),
    (JS.test JS.re_digit p), (JS.test JS.re_other p);
    cbn in Hcount; try lia; (split; [vm_compute; split; discriminate |]);
    reflexivity.
Qed.

(** X19. [estimateEntropy] is 0 for the empty password.  For every other
    password the character-set size is at least 10 and at most 93, so the
    test [charsetSize === 0] never fires and the entropy is the length times
    [Math.log2] of that size, rounded. *)
Theorem estimateEntropy_by_charset (p : JS.str) :
  Part002.estimateEntropy Math_log2 [] = 0%Z
  /\ (p <> [] ->
      (10 <= charset_size p <= 93)%Z
      /\ Part002.estimateEntropy Math_log2 p
         = JS.Math_round
             (inject_Z (JS.length p) * Math_log2 (charset_size p))).
Proof.
  split; [reflexivity | apply charset_cases].
Qed.

End SelfContained.

Lemma estimateEntropy_by_charset_witness :
  (10 <= charset_size (JS.lit "abc") <= 93)%Z.
Proof.
  destruct (estimateEntropy_by_charset (fun n => inject_Z (Z.log2 n))
              (JS.lit "abc")) as (_ & Hnonempty).
  destruct Hnonempty as (Hsize & _); [discriminate | exact Hsize].
Defined.

Lemma praise_iff_no_advice_witness :
  In "Nice job! This looks strong."%string
    (Part002.Feedback.suggestions
       (Part002.passwordFeedback (fun n => inject_Z (Z.log2 n))
          (JS.lit "Zy9!mN&QpL#7"))).
Proof.
  destruct (praise_iff_no_advice (fun n => inject_Z (Z.log2 n))
              (JS.lit "Zy9!mN&QpL#7")) as ((_ & Hpraise) & _).
  apply Hpraise. split; [| split].
  - vm_compute. discriminate.
  - vm_compute. discriminate.
  - right. vm_compute. reflexivity.
Defined.

(** ** The tooltip *)

Section TooltipState.

Lemma clicks_toggle (clicks : list Tooltip.Event) (open : bool) :
  forallb is_click clicks = true ->
  fold_left Tooltip.handle clicks open
  = xorb open (Nat.odd (List.length clicks)).
Proof.
  revert open. induction clicks as [| e clicks IH]; intros open Hall.
  - simpl. now rewrite xorb_false_r.
  - simpl in Hall. apply andb_true_iff in Hall. destruct Hall as [He Hall].
    destruct e; try discriminate He.
    cbn [fold_left Tooltip.handle List.length]. rewrite (IH _ Hall).
    rewrite Nat.odd_succ, <- Nat.negb_odd.
    destruct open, (Nat.odd (List.length clicks)); reflexivity.
Qed.

(** X22. Whether the tooltip is open depends only on the last event that
    is not a click and on the clicks after it: entering or focusing opens
    it, leaving or blurring closes it, and each later click toggles it,
    whatever happened before.  With clicks only, it is open after an odd
    number of them. *)
Theorem tooltip_open_after (before : list Tooltip.Event) (e : Tooltip.Event)
    (clicks : list Tooltip.Event) :
  forallb is_click clicks = true ->
  Tooltip.run clicks = Nat.odd (List.length clicks)
  /\ (is_click e = false ->
      Tooltip.run (before ++ e :: clicks)
      = xorb (opens e) (Nat.odd (List.length clicks))).
Proof.
  intros Hall. unfold Tooltip.run. split.
  - rewrite (clicks_toggle clicks false Hall). reflexivity.
  - intros He. rewrite fold_left_app. cbn [fold_left].
    rewrite (clicks_toggle clicks _ Hall). f_equal.
    destruct e; try discriminate He; reflexivity.
Qed.

Lemma tooltip_open_after_witness :
  Tooltip.run
    ([Tooltip.Click; Tooltip.Focus]
       ++ Tooltip.MouseEnter :: [Tooltip.Click]) = false.
Proof.
  destruct (tooltip_open_after [Tooltip.Click; Tooltip.Focus]
              Tooltip.MouseEnter [Tooltip.Click]) as (_ & Hafter);
    [reflexivity |].
  rewrite Hafter; reflexivity.
Defined.

End TooltipState.

Lemma formatDuration_instant_witness :
  Part002.formatDuration JS.NaN = "almost instantly"%string
  /\ Part002.formatDuration (JS.Finite (-5)) = "almost instantly"%string.
Proof.
  destruct (formatDuration_instant JS.NaN) as (Hnan & _);
    [left; reflexivity |].
  destruct (formatDuration_instant (JS.Finite (-5))) as (Hneg & _);
    [right; reflexivity |].
  split; [exact Hnan | exact Hneg].
Defined.

(** ** The self-contained version: what the page shows *)

Section SelfContainedEstimate.

Variable Math_log2 : Z -> Q.

(** X25. For the empty password the self-contained version reports an
    entropy of 0, a variety of 0 and the fixed prompt; its crack time is
    one guess at half of 1e10 guesses a second, which the formatter prints
    as "0 seconds". *)
Theorem empty_password_self_contained :
  Part002.Estimate.entropy (Part002.scorePassword Math_log2 []) = 0%Z
  /\ Part002.Estimate.variety (Part002.scorePassword Math_log2 []) = 0%Z
  /\ Part002.Estimate.suggestion (Part002.scorePassword Math_log2 [])
     = Some Spec.prompt
  /\ Part002.Estimate.crackSeconds (Part002.scorePassword Math_log2 [])
     == 1 # 20000000000
  /\ Part002.Estimate.crackTime (Part002.scorePassword Math_log2 [])
     = "0 seconds"%string.
Proof.
  repeat split; vm_compute; reflexivity.
Qed.

(** X26. The one suggestion that the self-contained version shows follows
    a fixed priority: the prompt for the empty password; else the advice to
    make it longer when it has fewer than 12 code units; else the advice to
    mix classes when it has fewer than three; else the advice on spaces when
    it has at least 16 code units and no white space; else the praise. *)
Theorem shown_suggestion_priority (p : JS.str) :
  Part002.Estimate.suggestion (Part002.scorePassword Math_log2 p)
  = Some
      (if (JS.length p =? 0)%Z then Spec.prompt
       else if (JS.length p <? 12)%Z
       then "Try a longer password or passphrase."
       else if (class_count p <? 3)%Z
       then "Mix uppercase, lowercase, numbers, and symbols."
       else if negb (JS.test JS.re_space p) && (16 <=? JS.length p)%Z
       then "Passphrases with spaces are memorable and strong."
       else "Nice job! This looks strong.")%string.
Proof.
  unfold Part002.scorePassword, Part002.passwordFeedback.
  cbn [Part002.Estimate.suggestion Part002.Feedback.suggestions].
  change (Z.of_nat (List.length
            (filter (fun regex => JS.test regex p)
               [JS.re_lower; JS.re_upper; JS.re_digit; JS.re_other])))
    with (class_count p).
  destruct (JS.length p =? 0)%Z, (JS.length p <? 12)%Z,
    (class_count p <? 3)%Z, (JS.test JS.re_space p),
    (16 <=? JS.length p)%Z; reflexivity.
Qed.

End SelfContainedEstimate.
